(** * check_opnsense.py: a shallow embedding and its properties

    The plugin queries the OPNsense API once (twice in updates mode), grades
    the decoded payload and terminates through [output], which prints one line
    and calls [sys.exit].  The embedding follows [src/check_opnsense.py]
    method by method.  Python values decoded from JSON are the type [json];
    a method of [CheckOPNsense] is a computation in the monad [M], which
    threads the fields of [self] together with the process's standard output
    and the requests it has sent, and ends in a return, in [SystemExit] or in
    an uncaught exception. *)

From Stdlib Require Import ZArith List String Ascii Bool Lia DecimalString.
Import ListNotations.
Local Open Scope string_scope.
Local Open Scope Z_scope.

(** ** Python strings

    A [str] is held as its UTF-8 bytes: equality and the substring test
    agree with Python's on code points. *)

(** [str(n)] for an int. *)
Definition str_int (n : Z) : string := NilZero.string_of_int (Z.to_int n).

(** [needle in hay] for two strs. *)
Fixpoint str_contains (needle hay : string) : bool :=
  prefix needle hay ||
  match hay with
  | EmptyString => false
  | String _ hay' => str_contains needle hay'
  end.

(** [sep.join(items)] for strs. *)
Definition join (sep : string) (items : list string) : string :=
  String.concat sep items.

(** A byte [10xxxxxx] continues a UTF-8 sequence. *)
Definition is_continuation (c : ascii) : bool :=
  match c with
  | Ascii _ _ _ _ _ _ b6 b7 => b7 && negb b6
  end.

Fixpoint utf8_split (s : string) : string * list string :=
  match s with
  | EmptyString => (EmptyString, [])
  | String c s' =>
      let (tail, chars) := utf8_split s' in
      if is_continuation c then (String c tail, chars)
      else (EmptyString, String c tail :: chars)
  end.

(** The characters a [for] loop over a str yields. *)
Definition utf8_chars (s : string) : list string := snd (utf8_split s).

(** ** [class CheckState(Enum)] *)

Inductive CheckState := OK | WARNING | CRITICAL | UNKNOWN.

(** [rc.value] *)
Definition CheckState_value (rc : CheckState) : Z :=
  match rc with
  | OK => 0
  | WARNING => 1
  | CRITICAL => 2
  | UNKNOWN => 3
  end.

(** [rc.name] *)
Definition CheckState_name (rc : CheckState) : string :=
  match rc with
  | OK => "OK"
  | WARNING => "WARNING"
  | CRITICAL => "CRITICAL"
  | UNKNOWN => "UNKNOWN"
  end.

(** ** The exceptions of [requests] the plugin names, and the others

    [ConnectTimeout] and [SSLError] are subclasses of [ConnectionError];
    [RequestException] stands for every exception of the library that is not
    a [ConnectionError] (a read timeout, too many redirects, ...). *)

Inductive requests_exception :=
  ConnectTimeout | SSLError | ConnectionError | RequestException.

(** [isinstance(e, cls)] *)
Definition isinstance (e cls : requests_exception) : bool :=
  match e, cls with
  | ConnectTimeout, (ConnectTimeout | ConnectionError | RequestException) => true
  | SSLError, (SSLError | ConnectionError | RequestException) => true
  | ConnectionError, (ConnectionError | RequestException) => true
  | RequestException, RequestException => true
  | _, _ => false
  end.

(** Exceptions nothing in the program catches. *)
Inductive exception :=
| KeyError
| TypeError
| AttributeError
| RuntimeError
| JSONDecodeError
| Requests (e : requests_exception).

(** How a computation ends: it returns, [sys.exit(code)] was called, or an
    exception went uncaught. *)
Inductive outcome (A : Type) :=
| Return (a : A)
| Exit (code : Z)
| Raised (e : exception).
Arguments Return {A} a.
Arguments Exit {A} code.
Arguments Raised {A} e.


(** ** The monad of methods

    A method is a function of the state it runs in; the state survives
    [sys.exit] and an uncaught exception, so that what was printed and sent
    before can be read off the end of a run. *)

Definition M (S A : Type) : Type := S -> outcome A * S.

Definition ret {S A} (a : A) : M S A := fun s => (Return a, s).

Definition bind {S A B} (m : M S A) (k : A -> M S B) : M S B :=
  fun s =>
    match m s with
    | (Return a, s') => k a s'
    | (Exit code, s') => (Exit code, s')
    | (Raised e, s') => (Raised e, s')
    end.

Definition raise {S A} (e : exception) : M S A := fun s => (Raised e, s).

(** [sys.exit(code)] *)
Definition sys_exit {S A} (code : Z) : M S A := fun s => (Exit code, s).

Definition get_state {S} : M S S := fun s => (Return s, s).

Definition modify {S} (f : S -> S) : M S unit := fun s => (Return tt, f s).

(** [try: body except cls1: h1 except cls2: h2 ...]: the first handler whose
    class the exception is an instance of runs; [SystemExit] and the other
    exceptions pass through. *)
Definition try_except {S A} (body : M S A)
    (handlers : list (requests_exception * M S A)) : M S A :=
  fun s =>
    match body s with
    | (Raised (Requests e), s') =>
        match find (fun h => isinstance e (fst h)) handlers with
        | Some h => snd h s'
        | None => (Raised (Requests e), s')
        end
    | r => r
    end.

Notation "x <- c ;; k" := (bind c (fun x => k))
  (at level 61, c at next level, right associativity).
Notation "c ;; k" := (bind c (fun _ => k))
  (at level 61, right associativity).

Section Python.

(** What Python provides and the program does not define: the float objects
    [json.loads] returns for numbers with a fraction or an exponent, their
    comparison with an int, their [str], and [repr] of a str. *)
Variable float : Type.
Variable float_eq_int : float -> Z -> bool.
Variable float_str : float -> string.
Variable str_repr : string -> string.

(** ** Decoded JSON

    What [response.json()] returns.  A dict keeps its insertion order; its
    keys are strs. *)
#[warnings="-register-all"]
Inductive json :=
| JNull
| JBool (b : bool)
| JInt (n : Z)
| JFloat (x : float)
| JStr (s : string)
| JList (l : list json)
| JDict (d : list (string * json)).

(** The objects [check_message] holds: a decoded value (a str among them) or
    a member of [CheckState]. *)
Inductive pyobj :=
| PJson (j : json)
| PState (rc : CheckState).

Definition PStr (s : string) : pyobj := PJson (JStr s).

Fixpoint repr (j : json) : string :=
  match j with
  | JNull => "None"
  | JBool true => "True"
  | JBool false => "False"
  | JInt n => str_int n
  | JFloat x => float_str x
  | JStr s => str_repr s
  | JList l => "[" ++ join ", " (map repr l) ++ "]"
  | JDict d =>
      "{" ++ join ", " (map (fun '(k, v) => str_repr k ++ ": " ++ repr v) d) ++ "}"
  end.

(** [str(j)], which an f-string applies to a field. *)
Definition str (j : json) : string :=
  match j with
  | JStr s => s
  | _ => repr j
  end.

Definition str_obj (o : pyobj) : string :=
  match o with
  | PJson j => str j
  | PState rc => "CheckState." ++ CheckState_name rc
  end.

(** [j == s] for a str [s]. *)
Definition eq_str (j : json) (s : string) : bool :=
  match j with
  | JStr s' => String.eqb s' s
  | _ => false
  end.

(** [j == n] for an int [n]: [True == 1] and [1.0 == 1] hold in Python. *)
Definition eq_int (j : json) (n : Z) : bool :=
  match j with
  | JInt m => m =? n
  | JBool b => (if b then 1 else 0) =? n
  | JFloat x => float_eq_int x n
  | _ => false
  end.

(** [d[k]] on a dict's items. *)
Fixpoint lookup (k : string) (d : list (string * json)) : option json :=
  match d with
  | [] => None
  | (k', v) :: d' => if String.eqb k' k then Some v else lookup k d'
  end.

(** An HTTP response: [status_code] and what [response.json()] gives, [None]
    where the body does not decode. *)
Record Response := mkResponse {
  status_code : Z;
  body : option json
}.

(** [response.ok] of [requests]: [raise_for_status] raises for a status
    from 400 to 599. *)
Definition ok (response : Response) : bool :=
  negb ((400 <=? status_code response) && (status_code response <? 600)).

(** What the network does with a request: an exception of [requests] or a
    response. *)
Inductive reply :=
| Raises (e : requests_exception)
| Responds (r : Response).

(** [CHECK_API_TIMEOUT] *)
Definition CHECK_API_TIMEOUT : Z := 30.

(** A call of [requests.get] or [requests.post] with its arguments. *)
Record Request := mkRequest {
  req_method : string;
  req_url : string;
  req_verify : bool;
  req_auth : string * string;
  req_timeout : Z
}.

(** [self.options], as [argparse] leaves it. *)
Record Options := mkOptions {
  hostname : string;
  port : Z;
  api_key : string;
  api_secret : string;
  api_insecure : bool;
  mode : string;
  treshold_warning : option float;
  treshold_critical : option float
}.

(** The fields of [self], then the process around it: the network, whose
    [n]-th reply answers the [n]-th request sent, the requests sent so far
    and the lines printed so far. *)
Record state := mkState {
  options : Options;
  perfdata : list string;
  check_result : CheckState;
  check_message : pyobj;
  net : nat -> reply;
  sent : list Request;
  stdout : list string
}.

Definition set_perfdata (p : list string) (s : state) : state :=
  mkState (options s) p (check_result s) (check_message s)
          (net s) (sent s) (stdout s).
Definition set_check_result (rc : CheckState) (s : state) : state :=
  mkState (options s) (perfdata s) rc (check_message s)
          (net s) (sent s) (stdout s).
Definition set_check_message (m : pyobj) (s : state) : state :=
  mkState (options s) (perfdata s) (check_result s) m
          (net s) (sent s) (stdout s).
Definition set_sent (l : list Request) (s : state) : state :=
  mkState (options s) (perfdata s) (check_result s) (check_message s)
          (net s) l (stdout s).
Definition set_stdout (l : list string) (s : state) : state :=
  mkState (options s) (perfdata s) (check_result s) (check_message s)
          (net s) (sent s) l.

(** A method of the class. *)
Definition Method (A : Type) : Type := M state A.

(** ** Operations of Python on decoded values *)

(** [j[k]] for a str [k]: only a dict takes a str subscript. *)
Definition getitem (j : json) (k : string) : Method json :=
  match j with
  | JDict d =>
      match lookup k d with
      | Some v => ret v
      | None => raise KeyError
      end
  | _ => raise TypeError
  end.

(** [j.get(k)] *)
Definition get (j : json) (k : string) : Method json :=
  match j with
  | JDict d =>
      match lookup k d with
      | Some v => ret v
      | None => ret JNull
      end
  | _ => raise AttributeError
  end.

(** [j.values()] *)
Definition values (j : json) : Method (list json) :=
  match j with
  | JDict d => ret (map snd d)
  | _ => raise AttributeError
  end.

(** [k in j] for a str [k]: a key of a dict, an element of a list, a
    substring of a str. *)
Definition contains (k : string) (j : json) : Method bool :=
  match j with
  | JDict d =>
      ret (match lookup k d with Some _ => true | None => false end)
  | JList l => ret (existsb (fun x => eq_str x k) l)
  | JStr s => ret (str_contains k s)
  | _ => raise TypeError
  end.

(** What [for row in j] runs through. *)
Definition iter (j : json) : Method (list json) :=
  match j with
  | JList l => ret l
  | JDict d => ret (map (fun kv => JStr (fst kv)) d)
  | JStr s => ret (map JStr (utf8_chars s))
  | _ => raise TypeError
  end.

Fixpoint strs (items : list json) : option (list string) :=
  match items with
  | [] => Some []
  | JStr s :: items' =>
      match strs items' with
      | Some l => Some (s :: l)
      | None => None
      end
  | _ :: _ => None
  end.

(** [sep.join(items)]: every item has to be a str. *)
Definition str_join (sep : string) (items : list json) : Method string :=
  match strs items with
  | Some l => ret (join sep l)
  | None => raise TypeError
  end.

(** [message += tail] for a str [tail]: concatenation on a str, [extend] by
    the characters on a list. *)
Definition iadd (message : pyobj) (tail : string) : Method pyobj :=
  match message with
  | PJson (JStr m) => ret (PStr (m ++ tail))
  | PJson (JList l) => ret (PJson (JList (l ++ map JStr (utf8_chars tail))))
  | _ => raise TypeError
  end.

(** [len(l)] *)
Definition len {A} (l : list A) : Z := Z.of_nat (List.length l).

(** The truth value of a list. *)
Definition truthy {A} (l : list A) : bool :=
  match l with
  | [] => false
  | _ :: _ => true
  end.

(** [print(line)] *)
Definition print (line : string) : Method unit :=
  modify (fun s => set_stdout (stdout s ++ [line]) s).

(** ** [requests]

    The call is recorded with its arguments, and the network's reply to it
    is returned or raised. *)
Definition requests_call (method url : string) : Method Response :=
  s <- get_state ;;
  let r := mkRequest method url
             (negb (api_insecure (options s)))
             (api_key (options s), api_secret (options s))
             CHECK_API_TIMEOUT in
  modify (set_sent (sent s ++ [r])) ;;
  match net s (List.length (sent s)) with
  | Raises e => raise (Requests e)
  | Responds response => ret response
  end.

Definition requests_post : string -> Method Response := requests_call "post".
Definition requests_get : string -> Method Response := requests_call "get".

(** [response.json()] *)
Definition response_json (response : Response) : Method json :=
  match body response with
  | Some data => ret data
  | None => raise JSONDecodeError
  end.

(** ** [class CheckOPNsense] *)

(** [output]: prints and exits, whatever the caller expected back. *)
Definition output {A} (rc : CheckState) (message : pyobj) : Method A :=
  let prefix := CheckState_name rc in
  print (prefix ++ " - " ++ str_obj message) ;;
  sys_exit (CheckState_value rc).

Definition get_url (command : string) : Method string :=
  s <- get_state ;;
  ret ("https://" ++ hostname (options s) ++ ":" ++ str_int (port (options s))
       ++ "/api/" ++ command).

Definition request (url method : string) : Method json :=
  response <-
    try_except
      (if (method =? "post")%string then requests_post url
       else if (method =? "get")%string then requests_get url
       else output CRITICAL (PStr ("Unsupport request method: " ++ method)))
      [ (ConnectTimeout,
         output UNKNOWN
           (PStr "Could not connect to OPNsense: Connection timeout"));
        (SSLError,
         output UNKNOWN
           (PStr "Could not connect to OPNsense: Certificate validation failed"));
        (ConnectionError,
         output UNKNOWN
           (PStr "Could not connect to OPNsense: Failed to resolve hostname")) ] ;;
  if ok response then response_json response
  else
    let message := "Could not fetch data from API: " in
    let message :=
      if status_code response =? 401 then
        message ++ "Could not connection to OPNsense: invalid username or password"
      else if status_code response =? 403 then
        message ++ "Access denied. Please check if API user has sufficient permissions."
      else
        message ++ "HTTP error code was " ++ str_int (status_code response) in
    output UNKNOWN (PStr message).

Definition get_perfdata : Method string :=
  s <- get_state ;;
  let perfdata_ := "" in
  let perfdata_ :=
    if truthy (perfdata s) then "|" ++ join " " (perfdata s) else perfdata_ in
  ret perfdata_.

Definition check_output : Method unit :=
  s <- get_state ;;
  let message := check_message s in
  message <-
    (if truthy (perfdata s) then
       tail <- get_perfdata ;; iadd message tail
     else ret message) ;;
  s <- get_state ;;
  output (check_result s) message.

(** [check_updates] *)
Definition check_updates : Method unit :=
  url <- get_url "core/firmware/status" ;;
  data <- request url "get" ;;
  status <- getitem data "status" ;;
  data <-
    (if eq_str status "none" then
       (* no update information available -> trigger check *)
       request url "post"
     else ret data) ;;
  status <- getitem data "status" ;;
  let has_update := eq_str status "update" || eq_str status "upgrade" in
  status_reboot <- get data "status_reboot" ;;
  let needs_reboot := eq_str status_reboot "1" in
  if has_update then
    modify (set_check_result WARNING) ;;
    status_msg <- getitem data "status_msg" ;;
    modify (set_check_message (PJson status_msg)) ;;
    if needs_reboot then modify (set_check_result CRITICAL)
    else ret tt
  else
    modify (set_check_message (PStr "System up to date")).

(** The dict [status] of [check_system]. *)
Definition status : list (string * CheckState) :=
  [ ("OK", OK); ("Notice", OK); ("Warning", WARNING); ("Error", CRITICAL) ].

(** [status[k]]: a list or a dict is not hashable, anything else that is
    not one of the four keys is missing. *)
Definition status_getitem (k : json) : Method CheckState :=
  match k with
  | JStr s =>
      match find (fun kv => String.eqb (fst kv) s) status with
      | Some kv => ret (snd kv)
      | None => raise KeyError
      end
  | JList _ | JDict _ => raise TypeError
  | _ => raise KeyError
  end.

(** The generator
    [sec['message'] for sec in ... if 'message' in sec and sec['status'] != 'OK'],
    run to its end as [join] does before it looks at the items. *)
Fixpoint messages (secs : list json) : Method (list json) :=
  match secs with
  | [] => ret []
  | sec :: secs' =>
      has_message <- contains "message" sec ;;
      keep <-
        (if has_message then
           sec_status <- getitem sec "status" ;;
           ret (negb (eq_str sec_status "OK"))
         else ret false) ;;
      if keep then
        message <- getitem sec "message" ;;
        rest <- messages secs' ;;
        ret (message :: rest)
      else messages secs'
  end.

(** [check_system] *)
Definition check_system : Method unit :=
  url <- get_url "core/system/status" ;;
  data <- request url "get" ;;
  system <- getitem data "System" ;;
  system_status <- getitem system "status" ;;
  rc <- status_getitem system_status ;;
  modify (set_check_message (PState rc)) ;;
  system <- getitem data "System" ;;
  system_status <- getitem system "status" ;;
  if negb (eq_str system_status "OK") then
    secs <- values data ;;
    items <- messages secs ;;
    message <- str_join ", " items ;;
    modify (set_check_message (PStr message))
  else
    modify (set_check_message (PStr "No problems were detected.")).

(** The loop of [check_services] over the rows, with its two lists. *)
Fixpoint partition_rows (rows running not_running : list json)
  : Method (list json * list json) :=
  match rows with
  | [] => ret (running, not_running)
  | row :: rows' =>
      row_running <- getitem row "running" ;;
      if eq_int row_running 1 then
        name <- getitem row "name" ;;
        partition_rows rows' (running ++ [name]) not_running
      else
        name <- getitem row "name" ;;
        partition_rows rows' running (not_running ++ [name])
  end.

(** [check_services] *)
Definition check_services : Method unit :=
  url <- get_url "core/service/search" ;;
  data <- request url "get" ;;
  rows <- getitem data "rows" ;;
  rows <- iter rows ;;
  lists <- partition_rows rows [] [] ;;
  let running := fst lists in
  let not_running := snd lists in
  total <- getitem data "total" ;;
  if negb (eq_int total (len running + len not_running)) then
    raise RuntimeError
  else
    total <- getitem data "total" ;;
    s <- get_state ;;
    modify (set_perfdata
              (perfdata s ++
               ["'running'=" ++ str_int (len running) ++ ";;;0;" ++ str total])) ;;
    if truthy not_running then
      modify (set_check_result WARNING) ;;
      (* the literal of the source has no [f] before its quote *)
      modify (set_check_message
                (PStr "Services not running: {', '.join(not_running)}"))
    else
      modify (set_check_message (PStr "All services are running")).

(** [check] *)
Definition check : Method unit :=
  modify (set_check_result OK) ;;
  s <- get_state ;;
  (if (mode (options s) =? "updates")%string then check_updates
   else if (mode (options s) =? "services")%string then check_services
   else if (mode (options s) =? "system")%string then check_system
   else
     let message := "Check mode '" ++ mode (options s) ++ "' not known" in
     output UNKNOWN (PStr message)) ;;
  check_output.

(** [__init__], after [parse_args] has produced [opts]: the object before
    any method runs, in a process that has printed and sent nothing. *)
Definition init (opts : Options) (network : nat -> reply) : state :=
  mkState opts [] UNKNOWN (PStr "") network [] [].

(** The module's last two lines: [opnsense = CheckOPNsense()] and
    [opnsense.check()]. *)
Definition main (opts : Options) (network : nat -> reply)
  : outcome unit * state :=
  check (init opts network).

(** * Properties *)

(** ** What [request] does with each reply *)

(** The message [request] hands to [output] for a reply it does not return
    a payload from; [None] for a reply it returns from or lets escape. *)
Definition failure_message (rp : reply) : option string :=
  match rp with
  | Raises ConnectTimeout =>
      Some "Could not connect to OPNsense: Connection timeout"
  | Raises SSLError =>
      Some "Could not connect to OPNsense: Certificate validation failed"
  | Raises ConnectionError =>
      Some "Could not connect to OPNsense: Failed to resolve hostname"
  | Raises RequestException => None
  | Responds r =>
      if ok r then None
      else if status_code r =? 401 then
        Some "Could not fetch data from API: Could not connection to OPNsense: invalid username or password"
      else if status_code r =? 403 then
        Some "Could not fetch data from API: Access denied. Please check if API user has sufficient permissions."
      else
        Some ("Could not fetch data from API: HTTP error code was "
              ++ str_int (status_code r))
  end.

(** The state once [requests.get] or [requests.post] has been called. *)
Definition sending (method url : string) (s : state) : state :=
  set_sent
    (sent s ++
     [mkRequest method url (negb (api_insecure (options s)))
        (api_key (options s), api_secret (options s)) CHECK_API_TIMEOUT]) s.

(** The state once [output] has printed. *)
Definition reported (rc : CheckState) (message : string) (s : state) : state :=
  set_stdout (stdout s ++ [CheckState_name rc ++ " - " ++ message]) s.

Lemma output_eq {A} rc message s :
  @output A rc message s
  = (Exit (CheckState_value rc), reported rc (str_obj message) s).
Proof. reflexivity. Qed.

Lemma request_cases url method s :
  method = "get" \/ method = "post" ->
  request url method s =
  match failure_message (net s (List.length (sent s))) with
  | Some msg => (Exit 3, reported UNKNOWN msg (sending method url s))
  | None =>
      match net s (List.length (sent s)) with
      | Raises e => (Raised (Requests e), sending method url s)
      | Responds r =>
          match body r with
          | Some data => (Return data, sending method url s)
          | None => (Raised JSONDecodeError, sending method url s)
          end
      end
  end.
Proof.
  intros [-> | ->];
    unfold request, bind, try_except, requests_post, requests_get,
      requests_call, bind, get_state, modify, failure_message;
    cbn [String.eqb Ascii.eqb Bool.eqb];
    destruct (net s (List.length (sent s))) as [[]|r]; cbn;
    try reflexivity.
  all: unfold response_json; destruct (ok r);
    [ destruct (body r); reflexivity | ];
    destruct (status_code r =? 401); [ reflexivity | ];
    destruct (status_code r =? 403); reflexivity.
Qed.

Lemma request_unsupported url method s :
  method <> "get" -> method <> "post" ->
  request url method s
  = (Exit 2, reported CRITICAL ("Unsupport request method: " ++ method) s).
Proof.
  intros Hg Hp. apply String.eqb_neq in Hg, Hp.
  unfold request, bind, try_except. rewrite Hp, Hg. reflexivity.
Qed.

(** ** An invariant of every method

    From the state [s] a method ends with [o] in [s']: the network is the
    same, requests were only added, a request that [request] reports as
    failed is the last one sent and ends the run with its UNKNOWN line, and
    a line is printed exactly when the method ends in [sys.exit], whose code
    is then the value of the severity the line names. *)

Record behaves {A} (s : state) (o : outcome A) (s' : state) : Prop := {
  same_net : net s' = net s;
  sent_grows : exists new, sent s' = (sent s ++ new)%list;
  failure_is_final :
    forall i msg,
      (List.length (sent s) <= i < List.length (sent s'))%nat ->
      failure_message (net s i) = Some msg ->
      S i = List.length (sent s') /\
      o = Exit 3 /\
      stdout s' = (stdout s ++ [("UNKNOWN - " ++ msg)%string])%list;
  one_line :
    match o with
    | Exit code =>
        exists rc msg,
          code = CheckState_value rc /\
          stdout s' = (stdout s ++ [(CheckState_name rc ++ " - " ++ msg)%string])%list
    | _ => stdout s' = stdout s
    end
}.

Definition sound {A} (m : Method A) : Prop :=
  forall s, behaves s (fst (m s)) (snd (m s)).

(** A step that leaves the process as it is. *)
Definition quiet (f : state -> state) : Prop :=
  forall s, net (f s) = net s /\ sent (f s) = sent s /\ stdout (f s) = stdout s.

Lemma behaves_quiet {A} (o : outcome A) s s' :
  net s' = net s -> sent s' = sent s -> stdout s' = stdout s ->
  (forall code, o <> Exit code) ->
  behaves s o s'.
Proof.
  intros Hn Hs Ho Hx. split.
  - exact Hn.
  - exists []. rewrite app_nil_r. exact Hs.
  - intros i msg Hi. rewrite Hs in Hi. lia.
  - destruct o; try exact Ho. now elim (Hx code).
Qed.

Lemma sound_ret {A} (a : A) : sound (ret a).
Proof. intro s. apply behaves_quiet; auto; discriminate. Qed.

Lemma sound_raise {A} e : sound (@raise state A e).
Proof. intro s. apply behaves_quiet; auto; discriminate. Qed.

Lemma sound_get_state : sound get_state.
Proof. intro s. apply behaves_quiet; auto; discriminate. Qed.

Lemma sound_modify f : quiet f -> sound (modify f).
Proof.
  intros Hf s. destruct (Hf s) as (Hn & Hs & Ho).
  apply behaves_quiet; auto; discriminate.
Qed.

Lemma quiet_set_perfdata p : quiet (set_perfdata p).
Proof. intro s. now repeat split. Qed.

Lemma quiet_set_check_result rc : quiet (set_check_result rc).
Proof. intro s. now repeat split. Qed.

Lemma quiet_set_check_message m : quiet (set_check_message m).
Proof. intro s. now repeat split. Qed.

Lemma sound_bind {A B} (m : Method A) (k : A -> Method B) :
  sound m -> (forall a, sound (k a)) -> sound (x <- m ;; k x).
Proof.
  intros Hm Hk s. specialize (Hm s). unfold bind.
  destruct (m s) as [o s1]. cbn [fst snd] in Hm.
  destruct Hm as [Hn [new Hs] Hf Hl].
  destruct o as [a | code | e]; cbn [fst snd].
  - specialize (Hk a s1). destruct (k a s1) as [o' s']. cbn [fst snd] in Hk |- *.
    destruct Hk as [Hn' [new' Hs'] Hf' Hl']. split.
    + now rewrite Hn'.
    + exists (new ++ new')%list. now rewrite Hs', Hs, app_assoc.
    + intros i msg Hi Hmsg.
      destruct (Nat.lt_ge_cases i (List.length (sent s1))) as [Hlt | Hge].
      * destruct (Hf i msg) as (_ & Habs & _); [lia | exact Hmsg | discriminate].
      * rewrite <- Hn in Hmsg. rewrite <- Hl. apply Hf'; [lia | exact Hmsg].
    + rewrite <- Hl. exact Hl'.
  - split; auto. now exists new.
    intros i msg Hi Hmsg. destruct (Hf i msg Hi Hmsg) as (H1 & H2 & H3).
    repeat split; auto. now inversion H2.
  - split; auto. now exists new.
    intros i msg Hi Hmsg. destruct (Hf i msg Hi Hmsg) as (_ & H2 & _).
    discriminate.
Qed.

Lemma sound_output {A} rc message : sound (@output A rc message).
Proof.
  intro s. rewrite output_eq. cbn [fst snd]. split.
  - reflexivity.
  - exists []. now rewrite app_nil_r.
  - intros i msg Hi. cbn in Hi. lia.
  - now exists rc, (str_obj message).
Qed.

Lemma sound_request url method : sound (request url method).
Proof.
  intro s.
  destruct (string_dec method "get") as [Hg | Hg];
    [ | destruct (string_dec method "post") as [Hp | Hp] ].
  3: { rewrite request_unsupported by assumption. cbn [fst snd]. split.
       - reflexivity.
       - exists []. now rewrite app_nil_r.
       - intros i msg Hi. cbn in Hi. lia.
       - now exists CRITICAL, ("Unsupport request method: " ++ method). }
  all: rewrite request_cases by auto.
  all: destruct (failure_message (net s (List.length (sent s)))) as [msg0 | ] eqn:Hfm.
  all: try (destruct (net s (List.length (sent s))) as [e | r] eqn:Hrp;
            [ | destruct (body r) ]).
  all: cbn [fst snd]; split;
    [ reflexivity
    | eexists; reflexivity
    | intros i msg Hi Hmsg; cbn in Hi; rewrite length_app in Hi; cbn in Hi;
      assert (i = List.length (sent s)) as -> by lia;
      rewrite ?Hrp in *; rewrite Hfm in Hmsg; inversion Hmsg; subst;
      repeat split; cbn; rewrite ?length_app; cbn; lia
    | try reflexivity; now exists UNKNOWN, msg0 ].
Qed.

Create HintDb sound_db.
#[local] Hint Resolve sound_ret sound_raise sound_get_state sound_modify
  sound_output sound_request quiet_set_perfdata quiet_set_check_result
  quiet_set_check_message : sound_db.

(** Splits a method along its binds, branches and matches. *)
Ltac sound_step :=
  match goal with
  | |- sound (bind _ _) => apply sound_bind; [ | intro ]
  | |- sound (if ?b then _ else _) => destruct b
  | |- sound (match ?x with _ => _ end) => destruct x
  | |- sound (let _ := _ in _) => cbv zeta
  end.
Ltac sound_tac := repeat sound_step; auto with sound_db.

Lemma sound_getitem j k : sound (getitem j k).
Proof. unfold getitem. sound_tac. Qed.

Lemma sound_get j k : sound (get j k).
Proof. unfold get. sound_tac. Qed.

Lemma sound_values j : sound (values j).
Proof. unfold values. sound_tac. Qed.

Lemma sound_contains k j : sound (contains k j).
Proof. unfold contains. sound_tac. Qed.

Lemma sound_iter j : sound (iter j).
Proof. unfold iter. sound_tac. Qed.

Lemma sound_str_join sep items : sound (str_join sep items).
Proof. unfold str_join. sound_tac. Qed.

Lemma sound_iadd message tail : sound (iadd message tail).
Proof. unfold iadd. sound_tac. Qed.

Lemma sound_status_getitem k : sound (status_getitem k).
Proof. unfold status_getitem. sound_tac. Qed.

Lemma sound_get_url command : sound (get_url command).
Proof. unfold get_url. sound_tac. Qed.

Lemma sound_get_perfdata : sound get_perfdata.
Proof. unfold get_perfdata. sound_tac. Qed.

#[local] Hint Resolve sound_getitem sound_get sound_values sound_contains
  sound_iter sound_str_join sound_iadd sound_status_getitem sound_get_url
  sound_get_perfdata : sound_db.

Lemma sound_messages secs : sound (messages secs).
Proof.
  induction secs as [ | sec secs' IH]; cbn [messages]; sound_tac.
Qed.

Lemma sound_partition_rows rows :
  forall running not_running,
    sound (partition_rows rows running not_running).
Proof.
  induction rows as [ | row rows' IH]; intros; cbn [partition_rows];
    sound_tac.
Qed.

#[local] Hint Resolve sound_messages sound_partition_rows : sound_db.

Lemma sound_check_updates : sound check_updates.
Proof. unfold check_updates. sound_tac. Qed.

Lemma sound_check_system : sound check_system.
Proof. unfold check_system. sound_tac. Qed.

Lemma sound_check_services : sound check_services.
Proof. unfold check_services. sound_tac. Qed.

Lemma sound_check_output : sound check_output.
Proof. unfold check_output. sound_tac. Qed.

#[local] Hint Resolve sound_check_updates sound_check_system
  sound_check_services sound_check_output : sound_db.

Lemma sound_check : sound check.
Proof. unfold check. sound_tac. Qed.

(** ** [check] does not return: it leaves through [output] or an exception *)





(** ** The reporter and the adapter, over whole runs *)

Lemma main_behaves opts network :
  behaves (init opts network) (fst (main opts network))
    (snd (main opts network)).
Proof. apply sound_check. Qed.


(** C8. In every run, when a request that was sent raises [ConnectTimeout],
    [SSLError] or another [ConnectionError], the run ends in [sys.exit(3)],
    the value of UNKNOWN, having printed only the UNKNOWN line whose message
    holds "Connection timeout", "Certificate validation failed" or "Failed
    to resolve hostname" respectively, and that request is the last one
    sent: nothing is tried again. *)
Theorem transport_failure_is_unknown :
  forall opts network i e,
    (i < List.length (sent (snd (main opts network))))%nat ->
    network i = Raises e ->
    e <> RequestException ->
    let line :=
      match e with
      | ConnectTimeout =>
          "UNKNOWN - Could not connect to OPNsense: Connection timeout"
      | SSLError =>
          "UNKNOWN - Could not connect to OPNsense: Certificate validation failed"
      | _ =>
          "UNKNOWN - Could not connect to OPNsense: Failed to resolve hostname"
      end in
    let fragment :=
      match e with
      | ConnectTimeout => "Connection timeout"
      | SSLError => "Certificate validation failed"
      | _ => "Failed to resolve hostname"
      end in
    fst (main opts network) = Exit (CheckState_value UNKNOWN) /\
    stdout (snd (main opts network)) = [line] /\
    str_contains fragment line = true /\
    List.length (sent (snd (main opts network))) = S i.
Proof.
  intros opts network i e Hi He Hne line fragment.
  pose proof (failure_is_final _ _ _ (main_behaves opts network) i) as Hf.
  cbn [init sent net stdout List.length] in Hf.
  rewrite He in Hf.
  destruct e; try (now elim Hne);
    (edestruct Hf as (Hlast & Hexit & Hout);
     [ lia | reflexivity | ]);
    repeat split; auto.
Qed.

(** C3, amended. In every run, when a request that was sent is answered
    with status 403, the run ends in [sys.exit(3)], the value of UNKNOWN,
    having printed only the line "UNKNOWN - Could not fetch data from API:
    Access denied. Please check if API user has sufficient permissions.",
    which holds "sufficient permissions". *)
Theorem forbidden_is_unknown :
  forall opts network i r,
    (i < List.length (sent (snd (main opts network))))%nat ->
    network i = Responds r ->
    status_code r = 403 ->
    let line :=
      "UNKNOWN - Could not fetch data from API: Access denied. Please check if API user has sufficient permissions." in
    fst (main opts network) = Exit (CheckState_value UNKNOWN) /\
    stdout (snd (main opts network)) = [line] /\
    str_contains "sufficient permissions" line = true.
Proof.
  intros opts network i r Hi Hr Hc line.
  pose proof (failure_is_final _ _ _ (main_behaves opts network) i) as Hf.
  cbn [init sent net stdout List.length] in Hf.
  rewrite Hr in Hf. unfold failure_message, ok in Hf. rewrite Hc in Hf.
  edestruct Hf as (Hlast & Hexit & Hout); [ lia | reflexivity | ].
  repeat split; auto.
Qed.

(** ** Payloads *)

(** The value under key [k] of a payload that is a dict. *)
Definition field (k : string) (j : json) : option json :=
  match j with
  | JDict d => lookup k d
  | _ => None
  end.

(** The [n]-th request is answered with a response that is [ok] and whose
    body decodes to [data]. *)
Definition replies_with (network : nat -> reply) (n : nat) (data : json)
  : Prop :=
  exists r, network n = Responds r /\ ok r = true /\ body r = Some data.

Lemma run_bind {A B} (m : Method A) (k : A -> Method B) s a s1 :
  m s = (Return a, s1) -> (x <- m ;; k x) s = k a s1.
Proof. intro H. unfold bind. now rewrite H. Qed.

Lemma getitem_field k j v s :
  field k j = Some v -> getitem j k s = (Return v, s).
Proof.
  destruct j; try discriminate. cbn. intros ->. reflexivity.
Qed.

Lemma get_field k j k' v' s :
  field k' j = Some v' ->
  get j k s
  = (Return (match field k j with Some v => v | None => JNull end), s).
Proof.
  destruct j; try discriminate. intros _. cbn. now destruct (lookup k d).
Qed.

Lemma request_ok url method s data :
  method = "get" \/ method = "post" ->
  replies_with (net s) (List.length (sent s)) data ->
  request url method s = (Return data, sending method url s).
Proof.
  intros Hm (r & Hr & Hok & Hb). rewrite request_cases by exact Hm.
  rewrite Hr. cbn [failure_message]. now rewrite Hok, Hb.
Qed.

(** The URL of [get_url] for the options of a run. *)
Definition api_url (opts : Options) (command : string) : string :=
  "https://" ++ hostname opts ++ ":" ++ str_int (port opts) ++ "/api/" ++ command.

(** The request [requests.get] or [requests.post] makes for these options. *)
Definition request_of (opts : Options) (method command : string) : Request :=
  mkRequest method (api_url opts command) (negb (api_insecure opts))
    (api_key opts, api_secret opts) 30.

(** ** Updates mode *)

(** The payload [check_updates] grades: the first one unless its status is
    "none", else the one the refresh returns. *)
Inductive effective_payload (network : nat -> reply) (data : json) : Prop :=
| cached st :
    replies_with network 0 data ->
    field "status" data = Some st ->
    eq_str st "none" = false ->
    effective_payload network data
| refreshed first st :
    replies_with network 0 first ->
    field "status" first = Some st ->
    eq_str st "none" = true ->
    replies_with network 1 data ->
    effective_payload network data.

(** [check_updates] from [has_update] on, with the payload settled. *)
Definition grade_updates (data : json) : Method unit :=
  status <- getitem data "status" ;;
  let has_update := eq_str status "update" || eq_str status "upgrade" in
  status_reboot <- get data "status_reboot" ;;
  let needs_reboot := eq_str status_reboot "1" in
  if has_update then
    modify (set_check_result WARNING) ;;
    status_msg <- getitem data "status_msg" ;;
    modify (set_check_message (PJson status_msg)) ;;
    if needs_reboot then modify (set_check_result CRITICAL)
    else ret tt
  else
    modify (set_check_message (PStr "System up to date")).

Lemma check_updates_eq :
  check_updates =
  (url <- get_url "core/firmware/status" ;;
   data <- request url "get" ;;
   status <- getitem data "status" ;;
   data <-
     (if eq_str status "none" then request url "post" else ret data) ;;
   grade_updates data).
Proof. reflexivity. Qed.

(** [has_update] and [needs_reboot] of [check_updates], read off a payload. *)
Definition has_update (data : json) : bool :=
  match field "status" data with
  | Some status => eq_str status "update" || eq_str status "upgrade"
  | None => false
  end.

Definition needs_reboot (data : json) : bool :=
  match field "status_reboot" data with
  | Some status_reboot => eq_str status_reboot "1"
  | None => false
  end.

(** What grading a settled payload and reporting it comes to. *)
Lemma grade_updates_verdict data st s :
  field "status" data = Some st ->
  perfdata s = [] ->
  check_result s = OK ->
  let r := (grade_updates data ;; check_output) s in
  if has_update data then
    match field "status_msg" data with
    | Some msg =>
        fst r = Exit (if needs_reboot data then 2 else 1) /\
        stdout (snd r)
        = (stdout s ++
           [((if needs_reboot data then "CRITICAL - " else "WARNING - ")
             ++ str msg)%string])%list
    | None => fst r = Raised KeyError /\ stdout (snd r) = stdout s
    end
  else
    fst r = Exit 0 /\
    stdout (snd r) = (stdout s ++ ["OK - System up to date"])%list.
Proof.
  intros Hst Hp Hc.
  destruct data as [ | | | | | | d]; try discriminate.
  destruct s as [o p c m n se out]. cbn in Hst, Hp, Hc. subst p c.
  unfold has_update, needs_reboot, field. rewrite Hst.
  unfold grade_updates, bind, getitem, get. rewrite Hst.
  cbv zeta.
  destruct (lookup "status_reboot" d) as [rb | ]; cbn [ret];
    destruct (eq_str st "update" || eq_str st "upgrade");
    try destruct (eq_str rb "1");
    destruct (lookup "status_msg" d); cbn; auto.
Qed.

(** A method that sends no request. *)
Definition silent {A} (m : Method A) : Prop :=
  forall s, sent (snd (m s)) = sent s.

Lemma silent_bind {A B} (m : Method A) (k : A -> Method B) :
  silent m -> (forall a, silent (k a)) -> silent (x <- m ;; k x).
Proof.
  intros Hm Hk s. specialize (Hm s). unfold bind.
  destruct (m s) as [[a | code | e] s1]; cbn [fst snd] in *; auto.
  now rewrite Hk.
Qed.

Ltac silent_step :=
  match goal with
  | |- silent (bind _ _) => apply silent_bind; [ | intro ]
  | |- silent (if ?b then _ else _) => destruct b
  | |- silent (match ?x with _ => _ end) => destruct x
  | |- silent (let _ := _ in _) => cbv zeta
  | |- silent _ => intro; reflexivity
  end.

(** Grading and reporting send nothing. *)
Lemma grade_updates_silent data : silent (grade_updates data ;; check_output).
Proof.
  unfold grade_updates, check_output, getitem, get, get_perfdata, iadd,
    output, print.
  repeat silent_step.
Qed.

Lemma bind_assoc {A B C} (m : Method A) (k : A -> Method B)
    (h : B -> Method C) s :
  (y <- (x <- m ;; k x) ;; h y) s = (x <- m ;; y <- k x ;; h y) s.
Proof.
  unfold bind. now destruct (m s) as [[a | code | e] s1].
Qed.

(** The state [check] is in once the requests [reqs] have been answered
    with payloads: nothing graded, nothing printed. *)
Definition answered (opts : Options) (network : nat -> reply)
    (reqs : list Request) : state :=
  mkState opts [] OK (PStr "") network reqs [].

(** [check] up to the call of the mode's method. *)
Lemma main_mode opts network :
  main opts network =
  ((if (mode opts =? "updates")%string then check_updates
    else if (mode opts =? "services")%string then check_services
    else if (mode opts =? "system")%string then check_system
    else
      output UNKNOWN (PStr ("Check mode '" ++ mode opts ++ "' not known"))) ;;
   check_output) (answered opts network []).
Proof. reflexivity. Qed.

Definition firmware_get (opts : Options) : Request :=
  request_of opts "get" "core/firmware/status".
Definition firmware_post (opts : Options) : Request :=
  request_of opts "post" "core/firmware/status".

Lemma updates_run_cached opts network data st :
  mode opts = "updates" ->
  replies_with network 0 data ->
  field "status" data = Some st ->
  eq_str st "none" = false ->
  main opts network
  = (grade_updates data ;; check_output)
      (answered opts network [firmware_get opts]).
Proof.
  intros Hm H0 Hst Hnone. rewrite main_mode, Hm. cbn [String.eqb Ascii.eqb Bool.eqb].
  rewrite check_updates_eq.
  rewrite bind_assoc; erewrite run_bind by reflexivity.
  rewrite bind_assoc; erewrite run_bind
    by (apply request_ok; [now left | exact H0]).
  rewrite bind_assoc; erewrite run_bind
    by (apply getitem_field; exact Hst).
  rewrite Hnone.
  rewrite bind_assoc; erewrite run_bind by reflexivity.
  reflexivity.
Qed.

Lemma updates_run_refreshed opts network first st data :
  mode opts = "updates" ->
  replies_with network 0 first ->
  field "status" first = Some st ->
  eq_str st "none" = true ->
  replies_with network 1 data ->
  main opts network
  = (grade_updates data ;; check_output)
      (answered opts network [firmware_get opts; firmware_post opts]).
Proof.
  intros Hm H0 Hst Hnone H1. rewrite main_mode, Hm. cbn [String.eqb Ascii.eqb Bool.eqb].
  rewrite check_updates_eq.
  rewrite bind_assoc; erewrite run_bind by reflexivity.
  rewrite bind_assoc; erewrite run_bind
    by (apply request_ok; [now left | exact H0]).
  rewrite bind_assoc; erewrite run_bind
    by (apply getitem_field; exact Hst).
  rewrite Hnone.
  rewrite bind_assoc; erewrite run_bind
    by (apply request_ok; [now right | exact H1]).
  reflexivity.
Qed.

Lemma effective_run opts network data :
  mode opts = "updates" ->
  effective_payload network data ->
  exists reqs,
    main opts network
    = (grade_updates data ;; check_output) (answered opts network reqs).
Proof.
  intros Hm [st H0 Hst Hnone | first st H0 Hst Hnone H1].
  - eexists. eapply updates_run_cached; eassumption.
  - eexists. eapply updates_run_refreshed; eassumption.
Qed.

Lemma request_sent url method s :
  method = "get" \/ method = "post" ->
  sent (snd (request url method s)) = sent (sending method url s).
Proof.
  intro Hm. rewrite request_cases by exact Hm.
  destruct (failure_message _); [ reflexivity | ].
  destruct (net s _) as [e | r]; [ reflexivity | ].
  now destruct (body r).
Qed.

Lemma sent_bind_silent {A B} (m : Method A) (k : A -> Method B) s :
  (forall a, silent (k a)) ->
  sent (snd ((x <- m ;; k x) s)) = sent (snd (m s)).
Proof.
  intro Hk. unfold bind. destruct (m s) as [[a | code | e] s1]; auto.
  apply Hk.
Qed.

(** C4, amended. In updates mode, for the payload in effect after the optional
    refresh, with status [st]: when [st] is neither "update" nor "upgrade"
    the run exits with the value of OK and prints "OK - System up to date";
    when it is one of them and the payload has a [status_msg], the run exits
    with the value of CRITICAL if [status_reboot] is "1" and with the value
    of WARNING otherwise (also when the key is missing), and the message
    printed is the payload's [status_msg]. *)
Theorem updates_severity :
  forall opts network data st,
    mode opts = "updates" ->
    effective_payload network data ->
    field "status" data = Some st ->
    let status_in_update_upgrade :=
      eq_str st "update" || eq_str st "upgrade" in
    (status_in_update_upgrade = false ->
     fst (main opts network) = Exit (CheckState_value OK) /\
     stdout (snd (main opts network)) = ["OK - System up to date"]) /\
    (forall status_msg,
       status_in_update_upgrade = true ->
       field "status_msg" data = Some status_msg ->
       (needs_reboot data = true ->
        fst (main opts network) = Exit (CheckState_value CRITICAL) /\
        stdout (snd (main opts network))
        = [("CRITICAL - " ++ str status_msg)%string]) /\
       (needs_reboot data = false ->
        fst (main opts network) = Exit (CheckState_value WARNING) /\
        stdout (snd (main opts network))
        = [("WARNING - " ++ str status_msg)%string])).
Proof.
  intros opts network data st Hm He Hst up.
  destruct (effective_run opts network data Hm He) as [reqs ->].
  pose proof (grade_updates_verdict data st (answered opts network reqs)
                Hst eq_refl eq_refl) as Hv.
  cbv zeta in Hv. unfold has_update in Hv. rewrite Hst in Hv. fold up in Hv.
  split.
  - intro Hup. rewrite Hup in Hv. exact Hv.
  - intros status_msg Hup Hmsg. rewrite Hup, Hmsg in Hv.
    split; intro Hrb; rewrite Hrb in Hv; exact Hv.
Qed.

(** C7. In updates mode, when the first payload's status is "none", the
    requests of the run are exactly the GET of [core/firmware/status] and one
    POST to the same URL, whatever the network answers to the POST.  The
    verdict is read off the payload the POST returns (where it has a status):
    in particular, when that status is "none" again, the run exits with the
    value of OK and prints "OK - System up to date". *)
Theorem updates_refresh_once :
  forall opts network first st,
    mode opts = "updates" ->
    replies_with network 0 first ->
    field "status" first = Some st ->
    eq_str st "none" = true ->
    sent (snd (main opts network))
    = [request_of opts "get" "core/firmware/status";
       request_of opts "post" "core/firmware/status"] /\
    (forall data st1,
       replies_with network 1 data ->
       field "status" data = Some st1 ->
       (eq_str st1 "none" = true ->
        fst (main opts network) = Exit (CheckState_value OK) /\
        stdout (snd (main opts network)) = ["OK - System up to date"]) /\
       (forall status_msg,
          eq_str st1 "update" || eq_str st1 "upgrade" = true ->
          field "status_msg" data = Some status_msg ->
          fst (main opts network)
          = Exit (if needs_reboot data then CheckState_value CRITICAL
                  else CheckState_value WARNING) /\
          stdout (snd (main opts network))
          = [((if needs_reboot data then "CRITICAL - " else "WARNING - ")
              ++ str status_msg)%string])).
Proof.
  intros opts network first st Hm H0 Hst Hnone. split.
  - rewrite main_mode, Hm. cbn [String.eqb Ascii.eqb Bool.eqb].
    rewrite check_updates_eq.
    rewrite bind_assoc; erewrite run_bind by reflexivity.
    rewrite bind_assoc; erewrite run_bind
      by (apply request_ok; [now left | exact H0]).
    rewrite bind_assoc; erewrite run_bind
      by (apply getitem_field; exact Hst).
    rewrite Hnone, bind_assoc.
    rewrite sent_bind_silent by (intro; apply grade_updates_silent).
    rewrite request_sent by now right. reflexivity.
  - intros data st1 H1 Hst1.
    rewrite (updates_run_refreshed opts network first st data Hm H0 Hst Hnone H1).
    pose proof (grade_updates_verdict data st1
                  (answered opts network [firmware_get opts; firmware_post opts])
                  Hst1 eq_refl eq_refl) as Hv.
    cbv zeta in Hv. unfold has_update in Hv. rewrite Hst1 in Hv.
    split.
    + intro Hn. destruct st1; try discriminate. cbn in Hn.
      apply String.eqb_eq in Hn. subst s. exact Hv.
    + intros status_msg Hup Hmsg. rewrite Hup, Hmsg in Hv.
      destruct (needs_reboot data); exact Hv.
Qed.

(** C10, amended. In updates mode, for the payload in effect whose status is "update"
    or "upgrade" and that has no [status_reboot] key: [data.get] returns
    [None] instead of failing, [None == "1"] is false as for any other value
    than "1", and, the payload having a [status_msg], the run exits with the
    value of WARNING, not of CRITICAL, and prints that message. *)
Theorem missing_status_reboot_is_warning :
  forall opts network data st status_msg,
    mode opts = "updates" ->
    effective_payload network data ->
    field "status" data = Some st ->
    eq_str st "update" || eq_str st "upgrade" = true ->
    field "status_reboot" data = None ->
    field "status_msg" data = Some status_msg ->
    (forall s, get data "status_reboot" s = (Return JNull, s)) /\
    eq_str JNull "1" = false /\
    fst (main opts network) = Exit (CheckState_value WARNING) /\
    fst (main opts network) <> Exit (CheckState_value CRITICAL) /\
    stdout (snd (main opts network))
    = [("WARNING - " ++ str status_msg)%string].
Proof.
  intros opts network data st status_msg Hm He Hst Hup Hrb Hmsg.
  destruct (effective_run opts network data Hm He) as [reqs ->].
  pose proof (grade_updates_verdict data st (answered opts network reqs)
                Hst eq_refl eq_refl) as Hv.
  cbv zeta in Hv. unfold has_update, needs_reboot in Hv.
  rewrite Hst, Hup, Hmsg, Hrb in Hv. destruct Hv as [Hexit Hout].
  repeat split.
  - intro s. rewrite (get_field _ _ _ _ _ Hst), Hrb. reflexivity.
  - exact Hexit.
  - rewrite Hexit. discriminate.
  - exact Hout.
Qed.

(** ** Services mode *)

(** A row [check_services] can read: a dict with the keys "running" and
    "name". *)
Definition is_row (row : json) : bool :=
  match field "running" row, field "name" row with
  | Some _, Some _ => true
  | _, _ => false
  end.

(** [row["running"] == 1] *)
Definition row_running (row : json) : bool :=
  match field "running" row with
  | Some v => eq_int v 1
  | None => false
  end.

Definition row_name (row : json) : json :=
  match field "name" row with
  | Some name => name
  | None => JNull
  end.

(** The lists [running] and [not_running] the loop builds. *)
Definition running_names (rows : list json) : list json :=
  map row_name (filter row_running rows).
Definition not_running_names (rows : list json) : list json :=
  map row_name (filter (fun row => negb (row_running row)) rows).

Lemma partition_rows_spec rows :
  forallb is_row rows = true ->
  forall running not_running s,
    partition_rows rows running not_running s
    = (Return ((running ++ running_names rows)%list,
               (not_running ++ not_running_names rows)%list), s).
Proof.
  unfold running_names, not_running_names.
  induction rows as [ | row rows' IH]; intros Hrows running not_running s.
  - cbn. now rewrite !app_nil_r.
  - cbn [forallb] in Hrows. apply andb_prop in Hrows as [Hrow Hrows'].
    unfold is_row in Hrow.
    destruct (field "running" row) as [v | ] eqn:Hv; [ | discriminate ].
    destruct (field "name" row) as [name | ] eqn:Hn; [ | discriminate ].
    assert (Hrn : row_name row = name) by (unfold row_name; now rewrite Hn).
    assert (Hrr : row_running row = eq_int v 1)
      by (unfold row_running; now rewrite Hv).
    cbn [partition_rows filter]. rewrite Hrr.
    erewrite run_bind by (apply getitem_field; exact Hv).
    destruct (eq_int v 1); cbn [negb map];
      (erewrite run_bind by (apply getitem_field; exact Hn));
      rewrite IH by exact Hrows'; rewrite ?Hrn, <- !app_assoc;
      reflexivity.
Qed.

(** The metric [check_services] appends. *)
Definition running_metric (rows : list json) (total : json) : string :=
  "'running'=" ++ str_int (len (running_names rows)) ++ ";;;0;" ++ str total.

Definition service_get (opts : Options) : Request :=
  request_of opts "get" "core/service/search".

(** A run in services mode on a payload whose rows can be read. *)
Lemma services_run opts network data rows total :
  mode opts = "services" ->
  replies_with network 0 data ->
  field "rows" data = Some (JList rows) ->
  forallb is_row rows = true ->
  field "total" data = Some total ->
  main opts network =
  if eq_int total (len (running_names rows) + len (not_running_names rows))
  then
    if truthy (not_running_names rows) then
      (Exit 1,
       mkState opts [running_metric rows total] WARNING
         (PStr "Services not running: {', '.join(not_running)}")
         network [service_get opts]
         [("WARNING - Services not running: {', '.join(not_running)}|"
           ++ running_metric rows total)%string])
    else
      (Exit 0,
       mkState opts [running_metric rows total] OK
         (PStr "All services are running")
         network [service_get opts]
         [("OK - All services are running|"
           ++ running_metric rows total)%string])
  else
    (Raised RuntimeError, answered opts network [service_get opts]).
Proof.
  intros Hm H0 Hrows Hwf Htotal. rewrite main_mode, Hm.
  cbn [String.eqb Ascii.eqb Bool.eqb]. unfold check_services.
  rewrite bind_assoc; erewrite run_bind by reflexivity.
  rewrite bind_assoc; erewrite run_bind
    by (apply request_ok; [now left | exact H0]).
  rewrite bind_assoc; erewrite run_bind
    by (apply getitem_field; exact Hrows).
  rewrite bind_assoc; erewrite run_bind by reflexivity.
  rewrite bind_assoc; erewrite run_bind
    by (apply partition_rows_spec; exact Hwf).
  rewrite bind_assoc; erewrite run_bind
    by (apply getitem_field; exact Htotal).
  cbn [fst snd app].
  destruct (eq_int total _); cbn [negb]; [ | reflexivity ].
  rewrite bind_assoc; erewrite run_bind
    by (apply getitem_field; exact Htotal).
  destruct (not_running_names rows); reflexivity.
Qed.

(** C6. In services mode, for a payload whose rows can be read, when the
    number of running rows plus the number of not-running rows is not the
    payload's [total], the run ends in an uncaught [RuntimeError]: nothing
    is printed, and the run does not exit with a severity, UNKNOWN or
    other. *)
Theorem services_total_mismatch_aborts :
  forall opts network data rows total,
    mode opts = "services" ->
    replies_with network 0 data ->
    field "rows" data = Some (JList rows) ->
    forallb is_row rows = true ->
    field "total" data = Some total ->
    eq_int total (len (running_names rows) + len (not_running_names rows))
    = false ->
    fst (main opts network) = Raised RuntimeError /\
    stdout (snd (main opts network)) = [] /\
    (forall rc, fst (main opts network) <> Exit (CheckState_value rc)).
Proof.
  intros opts network data rows total Hm H0 Hrows Hwf Htotal Hne.
  rewrite (services_run opts network data rows total Hm H0 Hrows Hwf Htotal).
  rewrite Hne. repeat split. discriminate.
Qed.

(** C9. In services mode, for a payload whose rows can be read and whose
    [total] is the number of its rows, the run leaves exactly one metric in
    [perfdata], ['running'=N;;;0;T], where [N] is the number of rows with
    [running == 1] and [T] is [str] of the payload's [total], and the line
    printed ends with ["|"] and that metric. *)
Theorem services_metric :
  forall opts network data rows total,
    mode opts = "services" ->
    replies_with network 0 data ->
    field "rows" data = Some (JList rows) ->
    forallb is_row rows = true ->
    field "total" data = Some total ->
    eq_int total (len (running_names rows) + len (not_running_names rows))
    = true ->
    let metric :=
      ("'running'=" ++ str_int (len (filter row_running rows))
       ++ ";;;0;" ++ str total)%string in
    perfdata (snd (main opts network)) = [metric] /\
    exists verdict,
      stdout (snd (main opts network)) = [(verdict ++ "|" ++ metric)%string].
Proof.
  intros opts network data rows total Hm H0 Hrows Hwf Htotal Heq metric.
  rewrite (services_run opts network data rows total Hm H0 Hrows Hwf Htotal).
  rewrite Heq.
  assert (Hmetric : running_metric rows total = metric).
  { unfold running_metric, metric, running_names, len.
    now rewrite length_map. }
  rewrite Hmetric.
  destruct (truthy (not_running_names rows)); cbn [snd perfdata stdout];
    (split; [ reflexivity | ]).
  - now exists "WARNING - Services not running: {', '.join(not_running)}".
  - now exists "OK - All services are running".
Qed.

(** The payload of scenario B. *)
Definition scenario_B : json :=
  JDict
    [ ("total", JInt 3);
      ("rows",
       JList
         [ JDict [("name", JStr "a"); ("running", JInt 1)];
           JDict [("name", JStr "b"); ("running", JInt 0)];
           JDict [("name", JStr "c"); ("running", JInt 1)] ]) ].

(** C2, as the code has it. On the payload of scenario B the run exits with
    the value of WARNING, but the message is the text of the source's
    literal, braces included: the name "b" of the service that is not
    running occurs nowhere in the line. *)
Theorem services_message_is_the_literal :
  forall opts network,
    mode opts = "services" ->
    replies_with network 0 scenario_B ->
    fst (main opts network) = Exit (CheckState_value WARNING) /\
    stdout (snd (main opts network))
    = ["WARNING - Services not running: {', '.join(not_running)}|'running'=2;;;0;3"] /\
    str_contains "b"
      "WARNING - Services not running: {', '.join(not_running)}|'running'=2;;;0;3"
    = false.
Proof.
  intros opts network Hm H0.
  rewrite (services_run opts network scenario_B _ (JInt 3) Hm H0
             eq_refl eq_refl eq_refl).
  repeat split.
Qed.

(** ** System mode *)

Definition system_get (opts : Options) : Request :=
  request_of opts "get" "core/system/status".

(** A payload whose only section is [System], with the given status. *)
Definition system_payload (status_text : string) : json :=
  JDict [("System", JDict [("status", JStr status_text)])].

(** C1, as the code has it. The severity [status] maps the System status to
    is stored in [check_message] and overwritten; [check_result] stays at
    OK.  On a payload whose System status is "Error", and on one whose
    System status is "Warning", the run exits with the value of OK and
    prints an OK line. *)
Theorem system_status_is_not_reported :
  forall opts network status_text,
    mode opts = "system" ->
    status_text = "Error" \/ status_text = "Warning" ->
    replies_with network 0 (system_payload status_text) ->
    fst (main opts network) = Exit (CheckState_value OK) /\
    stdout (snd (main opts network)) = ["OK - "].
Proof.
  intros opts network status_text Hm Hs H0. rewrite main_mode, Hm.
  cbn [String.eqb Ascii.eqb Bool.eqb]. unfold check_system.
  rewrite bind_assoc; erewrite run_bind by reflexivity.
  rewrite bind_assoc; erewrite run_bind
    by (apply request_ok; [now left | exact H0]).
  destruct Hs as [-> | ->]; split; reflexivity.
Qed.

(** * Further properties *)

(** ** Every reply that is not a payload ends the run *)

Lemma run_bind_raised {A B} (m : Method A) (k : A -> Method B) s e s1 :
  m s = (Raised e, s1) -> (x <- m ;; k x) s = (Raised e, s1).
Proof. intro H. unfold bind. now rewrite H. Qed.

Lemma run_bind_exit {A B} (m : Method A) (k : A -> Method B) s code s1 :
  m s = (Exit code, s1) -> (x <- m ;; k x) s = (Exit code, s1).
Proof. intro H. unfold bind. now rewrite H. Qed.

(** What [request] makes of a reply it returns no payload for: an uncaught
    exception, or the message of an UNKNOWN verdict. *)
Definition request_fate (rp : reply) : option (exception + string) :=
  match failure_message rp with
  | Some msg => Some (inr msg)
  | None =>
      match rp with
      | Raises e => Some (inl (Requests e))
      | Responds r =>
          match body r with
          | Some _ => None
          | None => Some (inl JSONDecodeError)
          end
      end
  end.

(** A request with such a reply is the last one sent, and the run ends as
    the reply has it. *)
Definition ends_run {A} (s : state) (o : outcome A) (s' : state) : Prop :=
  forall i f,
    (List.length (sent s) <= i < List.length (sent s'))%nat ->
    request_fate (net s i) = Some f ->
    S i = List.length (sent s') /\
    match f with
    | inl e => o = Raised e /\ stdout s' = stdout s
    | inr msg =>
        o = Exit 3 /\
        stdout s' = (stdout s ++ [("UNKNOWN - " ++ msg)%string])%list
    end.

Definition settled {A} (m : Method A) : Prop :=
  forall s,
    behaves s (fst (m s)) (snd (m s)) /\ ends_run s (fst (m s)) (snd (m s)).

Lemma settled_silent {A} (m : Method A) : sound m -> silent m -> settled m.
Proof.
  intros Hs Hq s. split; [ apply Hs | ].
  intros i f Hi. rewrite Hq in Hi. lia.
Qed.

Lemma settled_bind {A B} (m : Method A) (k : A -> Method B) :
  settled m -> (forall a, settled (k a)) -> settled (x <- m ;; k x).
Proof.
  intros Hm Hk s. split.
  { apply sound_bind; [ intro s0; apply Hm | intros a s0; apply Hk ]. }
  destruct (Hm s) as [Hb He]. unfold bind.
  destruct (m s) as [o s1]. cbn [fst snd] in Hb, He.
  destruct Hb as [Hn [new Hs] _ Hl].
  destruct o as [a | code | e]; cbn [fst snd].
  - destruct (Hk a s1) as [Hb' He'].
    destruct (k a s1) as [o' s']. cbn [fst snd] in Hb', He' |- *.
    destruct Hb' as [Hn' [new' Hs'] _ _].
    intros i f Hi Hf.
    destruct (Nat.lt_ge_cases i (List.length (sent s1))) as [Hlt | Hge].
    + destruct (He i f) as (_ & Habs); [ lia | exact Hf | ].
      destruct f; destruct Habs; discriminate.
    + rewrite <- Hn in Hf. rewrite <- Hl. apply He'; [ lia | exact Hf ].
  - intros i f Hi Hf. destruct (He i f Hi Hf) as (H1 & H2).
    split; [ exact H1 | ]. destruct f; destruct H2 as [H2 H3];
      [ discriminate | split; [ now inversion H2 | exact H3 ] ].
  - intros i f Hi Hf. destruct (He i f Hi Hf) as (H1 & H2).
    split; [ exact H1 | ]. destruct f; destruct H2 as [H2 H3];
      [ split; [ now inversion H2 | exact H3 ] | discriminate ].
Qed.

Lemma settled_request url method : settled (request url method).
Proof.
  intro s. split; [ apply sound_request | ].
  destruct (string_dec method "get") as [Hg | Hg];
    [ | destruct (string_dec method "post") as [Hp | Hp] ].
  3: { rewrite request_unsupported by assumption. cbn [fst snd].
       intros i f Hi. cbn in Hi. lia. }
  all: intros i f Hi Hf.
  all: rewrite request_sent in Hi |- * by auto.
  all: unfold sending in Hi |- *; cbn [sent set_sent] in Hi |- *;
    rewrite length_app in Hi |- *; cbn [List.length] in Hi |- *.
  all: assert (i = List.length (sent s)) as -> by lia.
  all: split; [ lia | ].
  all: rewrite request_cases by auto.
  all: unfold request_fate in Hf.
  all: destruct (failure_message (net s (List.length (sent s))))
      as [msg0 | ] eqn:Hfm.
  all: try (destruct (net s (List.length (sent s))) as [e | r] eqn:Hrp;
            [ | destruct (body r) ]).
  all: inversion Hf; subst; cbn [fst snd]; now split.
Qed.

Create HintDb silent_db.

Ltac silent_tac :=
  repeat first [ solve [ auto with silent_db ] | silent_step ].

Lemma silent_getitem j k : silent (getitem j k).
Proof. unfold getitem. silent_tac. Qed.

Lemma silent_get j k : silent (get j k).
Proof. unfold get. silent_tac. Qed.

Lemma silent_values j : silent (values j).
Proof. unfold values. silent_tac. Qed.

Lemma silent_contains k j : silent (contains k j).
Proof. unfold contains. silent_tac. Qed.

Lemma silent_iter j : silent (iter j).
Proof. unfold iter. silent_tac. Qed.

Lemma silent_str_join sep items : silent (str_join sep items).
Proof. unfold str_join. silent_tac. Qed.

Lemma silent_iadd message tail : silent (iadd message tail).
Proof. unfold iadd. silent_tac. Qed.

Lemma silent_status_getitem k : silent (status_getitem k).
Proof. unfold status_getitem. silent_tac. Qed.

#[local] Hint Resolve silent_getitem silent_get silent_values silent_contains
  silent_iter silent_str_join silent_iadd silent_status_getitem : silent_db.

Lemma silent_messages secs : silent (messages secs).
Proof.
  induction secs as [ | sec secs' IH]; cbn [messages]; silent_tac.
Qed.

Lemma silent_partition_rows rows :
  forall running not_running,
    silent (partition_rows rows running not_running).
Proof.
  induction rows as [ | row rows' IH]; intros; cbn [partition_rows];
    silent_tac.
Qed.

Lemma silent_check_output : silent check_output.
Proof. unfold check_output, get_perfdata. silent_tac. Qed.

#[local] Hint Resolve silent_messages silent_partition_rows
  silent_check_output : silent_db.

Ltac settled_step :=
  match goal with
  | |- settled (bind _ _) => apply settled_bind; [ | intro ]
  | |- settled (if ?b then _ else _) => destruct b
  | |- settled (match ?x with _ => _ end) => destruct x
  | |- settled (let _ := _ in _) => cbv zeta
  | |- settled (request _ _) => apply settled_request
  | |- settled _ =>
      apply settled_silent;
      [ solve [ auto with sound_db ] | solve [ silent_tac ] ]
  end.

Lemma settled_check : settled check.
Proof.
  unfold check, check_updates, check_services, check_system.
  repeat settled_step.
Qed.

Lemma main_settled opts network :
  ends_run (init opts network) (fst (main opts network))
    (snd (main opts network)).
Proof. apply settled_check. Qed.

(** X1. A request answered with status 401 ends the run with the UNKNOWN
    line about the username or password, and is the last request sent. *)
Theorem unauthorized_is_unknown :
  forall opts network i r,
    (i < List.length (sent (snd (main opts network))))%nat ->
    network i = Responds r ->
    status_code r = 401 ->
    fst (main opts network) = Exit (CheckState_value UNKNOWN) /\
    stdout (snd (main opts network))
    = ["UNKNOWN - Could not fetch data from API: Could not connection to OPNsense: invalid username or password"] /\
    List.length (sent (snd (main opts network))) = S i.
Proof.
  intros opts network i r Hi Hr Hc.
  pose proof (main_settled opts network i) as Hf.
  cbn [init sent net stdout List.length] in Hf.
  rewrite Hr in Hf. unfold request_fate, failure_message, ok in Hf.
  rewrite Hc in Hf.
  destruct (Hf (inr "Could not fetch data from API: Could not connection to OPNsense: invalid username or password")) as (Hlast & Hexit & Hout);
    [ lia | reflexivity | ].
  repeat split; auto.
Qed.

(** X2. A request answered with a status from 400 to 599 other than 401 and
    403 ends the run with the UNKNOWN line that gives the status code, and is
    the last request sent. *)
Theorem http_error_is_unknown :
  forall opts network i r,
    (i < List.length (sent (snd (main opts network))))%nat ->
    network i = Responds r ->
    400 <= status_code r < 600 ->
    status_code r <> 401 ->
    status_code r <> 403 ->
    fst (main opts network) = Exit (CheckState_value UNKNOWN) /\
    stdout (snd (main opts network))
    = [("UNKNOWN - Could not fetch data from API: HTTP error code was "
        ++ str_int (status_code r))%string] /\
    List.length (sent (snd (main opts network))) = S i.
Proof.
  intros opts network i r Hi Hr Hc H401 H403.
  pose proof (main_settled opts network i) as Hf.
  cbn [init sent net stdout List.length] in Hf.
  rewrite Hr in Hf. unfold request_fate, failure_message, ok in Hf.
  replace (400 <=? status_code r) with true in Hf
    by (symmetry; apply Z.leb_le; lia).
  replace (status_code r <? 600) with true in Hf
    by (symmetry; apply Z.ltb_lt; lia).
  apply Z.eqb_neq in H401, H403. rewrite H401, H403 in Hf.
  cbn [andb negb] in Hf.
  destruct (Hf (inr ("Could not fetch data from API: HTTP error code was "
                      ++ str_int (status_code r))%string)) as (Hlast & Hexit & Hout);
    [ lia | reflexivity | ].
  repeat split; auto.
Qed.

(** X3. A request answered with a status outside 400..599 whose body is not
    JSON ends the run in an uncaught decoding error: nothing is printed, and
    no further request is sent. *)
Theorem undecodable_body_is_uncaught :
  forall opts network i r,
    (i < List.length (sent (snd (main opts network))))%nat ->
    network i = Responds r ->
    status_code r < 400 \/ 600 <= status_code r ->
    body r = None ->
    fst (main opts network) = Raised JSONDecodeError /\
    stdout (snd (main opts network)) = [] /\
    List.length (sent (snd (main opts network))) = S i.
Proof.
  intros opts network i r Hi Hr Hc Hb.
  pose proof (main_settled opts network i) as Hf.
  cbn [init sent net stdout List.length] in Hf.
  rewrite Hr in Hf. unfold request_fate, failure_message, ok in Hf.
  replace ((400 <=? status_code r) && (status_code r <? 600)) with false
    in Hf
    by (symmetry; apply andb_false_iff;
        destruct Hc; [ left; apply Z.leb_gt | right; apply Z.ltb_ge ]; lia).
  cbn [negb] in Hf. rewrite Hb in Hf.
  destruct (Hf (inl JSONDecodeError)) as (Hlast & Hexit & Hout);
    [ lia | reflexivity | ].
  repeat split; auto.
Qed.

(** X4. An exception of [requests] that is not a [ConnectionError] (a read
    timeout, say) passes the three handlers: the run ends with it uncaught,
    nothing is printed, and no further request is sent. *)
Theorem other_requests_exception_is_uncaught :
  forall opts network i,
    (i < List.length (sent (snd (main opts network))))%nat ->
    network i = Raises RequestException ->
    fst (main opts network) = Raised (Requests RequestException) /\
    stdout (snd (main opts network)) = [] /\
    List.length (sent (snd (main opts network))) = S i.
Proof.
  intros opts network i Hi Hr.
  pose proof (main_settled opts network i) as Hf.
  cbn [init sent net stdout List.length] in Hf.
  rewrite Hr in Hf.
  destruct (Hf (inl (Requests RequestException))) as (Hlast & Hexit & Hout);
    [ lia | reflexivity | ].
  repeat split; auto.
Qed.

(** X5. A mode that is none of "updates", "services" and "system" ends the
    run with the UNKNOWN line naming the mode, before any request. *)
Theorem unknown_mode_is_unknown :
  forall opts network,
    mode opts <> "updates" ->
    mode opts <> "services" ->
    mode opts <> "system" ->
    fst (main opts network) = Exit (CheckState_value UNKNOWN) /\
    stdout (snd (main opts network))
    = [("UNKNOWN - Check mode '" ++ mode opts ++ "' not known")%string] /\
    sent (snd (main opts network)) = [].
Proof.
  intros opts network Hu Hs Hy. rewrite main_mode.
  apply String.eqb_neq in Hu, Hs, Hy. rewrite Hu, Hs, Hy.
  repeat split.
Qed.

(** ** The requests of a run *)

Lemma getitem_missing k j s :
  field k j = None -> exists e, getitem j k s = (Raised e, s).
Proof.
  destruct j; cbn; try (now exists TypeError).
  intros ->. now exists KeyError.
Qed.

(** The first reply is a payload whose status is "none". *)
Definition refresh_due (network : nat -> reply) : bool :=
  match network 0%nat with
  | Raises _ => false
  | Responds r =>
      ok r &&
      match body r with
      | Some data =>
          match field "status" data with
          | Some st => eq_str st "none"
          | None => false
          end
      | None => false
      end
  end.

Lemma services_sent opts network :
  mode opts = "services" ->
  sent (snd (main opts network)) = [service_get opts].
Proof.
  intro Hm. rewrite main_mode, Hm. cbn [String.eqb Ascii.eqb Bool.eqb].
  unfold check_services.
  rewrite bind_assoc; erewrite run_bind by reflexivity.
  rewrite bind_assoc.
  rewrite sent_bind_silent by (intro; silent_tac).
  rewrite request_sent by now left. reflexivity.
Qed.

Lemma system_sent opts network :
  mode opts = "system" ->
  sent (snd (main opts network)) = [system_get opts].
Proof.
  intro Hm. rewrite main_mode, Hm. cbn [String.eqb Ascii.eqb Bool.eqb].
  unfold check_system.
  rewrite bind_assoc; erewrite run_bind by reflexivity.
  rewrite bind_assoc.
  rewrite sent_bind_silent by (intro; silent_tac).
  rewrite request_sent by now left. reflexivity.
Qed.

Lemma updates_sent opts network :
  mode opts = "updates" ->
  sent (snd (main opts network))
  = if refresh_due network then [firmware_get opts; firmware_post opts]
    else [firmware_get opts].
Proof.
  intro Hm. rewrite main_mode, Hm. cbn [String.eqb Ascii.eqb Bool.eqb].
  rewrite check_updates_eq.
  rewrite bind_assoc; erewrite run_bind by reflexivity.
  rewrite bind_assoc.
  match goal with
  | |- context [bind (request ?url "get") _ ?s0] =>
      pose proof (request_cases url "get" s0 (or_introl eq_refl)) as Hreq
  end.
  cbn [answered net sent List.length] in Hreq. unfold refresh_due.
  unfold failure_message in Hreq.
  destruct (network 0%nat) as [e | r].
  - destruct e; first
      [ erewrite run_bind_exit by exact Hreq
      | erewrite run_bind_raised by exact Hreq ]; reflexivity.
  - destruct (ok r); cbn [andb].
    2: { destruct (status_code r =? 401);
           [ | destruct (status_code r =? 403) ];
           erewrite run_bind_exit by exact Hreq; reflexivity. }
    destruct (body r) as [data | ].
    2: { erewrite run_bind_raised by exact Hreq. reflexivity. }
    erewrite run_bind by exact Hreq. rewrite bind_assoc.
    destruct (field "status" data) as [st | ] eqn:Hst.
    2: { match goal with
         | |- context [bind (getitem data "status") _ ?s1] =>
             destruct (getitem_missing "status" data s1 Hst) as [e He]
         end.
         erewrite run_bind_raised by exact He. reflexivity. }
    erewrite run_bind by (apply getitem_field; exact Hst).
    rewrite bind_assoc.
    destruct (eq_str st "none").
    + rewrite sent_bind_silent by (intro; apply grade_updates_silent).
      rewrite request_sent by now right. reflexivity.
    + erewrite run_bind by reflexivity.
      rewrite grade_updates_silent. reflexivity.
Qed.

Lemma refresh_due_iff network :
  refresh_due network = true <->
  exists first st,
    replies_with network 0 first /\
    field "status" first = Some st /\
    eq_str st "none" = true.
Proof.
  unfold refresh_due, replies_with. split.
  - destruct (network 0%nat) as [e | r]; [ discriminate | ].
    destruct (ok r) eqn:Hok; [ | discriminate ].
    destruct (body r) as [data | ] eqn:Hb; [ | discriminate ].
    destruct (field "status" data) as [st | ] eqn:Hst; [ | discriminate ].
    cbn [andb]. intro Hnone. exists data, st.
    repeat split; try assumption. now exists r.
  - intros (first & st & (r & -> & Hok & Hb) & Hst & Hnone).
    now rewrite Hok, Hb, Hst.
Qed.

(** X6. In services mode and in system mode a run sends exactly one
    request, whatever the network answers: a GET of the mode's endpoint under
    [https://host:port/api/], with the key and the secret as credentials,
    certificate verification on unless [--insecure] was given, and the
    timeout of 30 seconds. *)
Theorem one_request_per_run :
  forall opts network,
    mode opts = "services" \/ mode opts = "system" ->
    sent (snd (main opts network))
    = [mkRequest "get"
         ("https://" ++ hostname opts ++ ":" ++ str_int (port opts) ++ "/api/"
          ++ (if (mode opts =? "services")%string then "core/service/search"
              else "core/system/status"))
         (negb (api_insecure opts)) (api_key opts, api_secret opts) 30].
Proof.
  intros opts network [Hm | Hm].
  - rewrite (services_sent opts network Hm), Hm. reflexivity.
  - rewrite (system_sent opts network Hm), Hm. reflexivity.
Qed.

(** X7. In updates mode a run sends the GET of [core/firmware/status] and,
    exactly when the reply to it is a payload whose status is "none", one
    POST to the same URL after it; it sends nothing else. *)
Theorem refresh_exactly_when_none :
  forall opts network,
    mode opts = "updates" ->
    let refresh :=
      exists first st,
        replies_with network 0 first /\
        field "status" first = Some st /\
        eq_str st "none" = true in
    (refresh /\
     sent (snd (main opts network))
     = [request_of opts "get" "core/firmware/status";
        request_of opts "post" "core/firmware/status"]) \/
    (~ refresh /\
     sent (snd (main opts network))
     = [request_of opts "get" "core/firmware/status"]).
Proof.
  intros opts network Hm refresh.
  rewrite (updates_sent opts network Hm).
  destruct (refresh_due network) eqn:Hdue.
  - left. split; [ now apply refresh_due_iff | reflexivity ].
  - right. split; [ | reflexivity ].
    intro Hr. apply refresh_due_iff in Hr. congruence.
Qed.

(** ** The exit codes of each mode *)

(** A method that neither grades nor exits. *)
Definition inert {A} (m : Method A) : Prop :=
  forall s,
    check_result (snd (m s)) = check_result s /\
    forall code, fst (m s) <> Exit code.

Lemma inert_bind {A B} (m : Method A) (k : A -> Method B) :
  inert m -> (forall a, inert (k a)) -> inert (x <- m ;; k x).
Proof.
  intros Hm Hk s. destruct (Hm s) as [Hc Hx]. unfold bind.
  destruct (m s) as [[a | code | e] s1]; cbn [fst snd] in *.
  - destruct (Hk a s1) as [Hc' Hx']. split; [ congruence | exact Hx' ].
  - now elim (Hx code).
  - split; [ exact Hc | discriminate ].
Qed.

Create HintDb inert_db.

Ltac inert_step :=
  match goal with
  | |- inert (bind _ _) => apply inert_bind; [ | intro ]
  | |- inert (if ?b then _ else _) => destruct b
  | |- inert (match ?x with _ => _ end) => destruct x
  | |- inert (let _ := _ in _) => cbv zeta
  | |- inert _ => intro; split; [ reflexivity | discriminate ]
  end.
Ltac inert_tac :=
  repeat first [ solve [ auto with inert_db ] | inert_step ].

Lemma inert_getitem j k : inert (getitem j k).
Proof. unfold getitem. inert_tac. Qed.

Lemma inert_get j k : inert (get j k).
Proof. unfold get. inert_tac. Qed.

Lemma inert_values j : inert (values j).
Proof. unfold values. inert_tac. Qed.

Lemma inert_contains k j : inert (contains k j).
Proof. unfold contains. inert_tac. Qed.

Lemma inert_iter j : inert (iter j).
Proof. unfold iter. inert_tac. Qed.

Lemma inert_str_join sep items : inert (str_join sep items).
Proof. unfold str_join. inert_tac. Qed.

Lemma inert_status_getitem k : inert (status_getitem k).
Proof. unfold status_getitem. inert_tac. Qed.

#[local] Hint Resolve inert_getitem inert_get inert_values inert_contains
  inert_iter inert_str_join inert_status_getitem : inert_db.

Lemma inert_messages secs : inert (messages secs).
Proof.
  induction secs as [ | sec secs' IH]; cbn [messages]; inert_tac.
Qed.

Lemma inert_partition_rows rows :
  forall running not_running,
    inert (partition_rows rows running not_running).
Proof.
  induction rows as [ | row rows' IH]; intros; cbn [partition_rows];
    inert_tac.
Qed.

#[local] Hint Resolve inert_messages inert_partition_rows : inert_db.

(** From a state whose [check_result] is within [R], the method leaves it
    within [R], and exits, if it does, with 3 or with the value of a severity
    within [R]. *)
Definition grades_within (R : CheckState -> Prop) {A} (m : Method A)
  : Prop :=
  forall s,
    R (check_result s) ->
    R (check_result (snd (m s))) /\
    forall code,
      fst (m s) = Exit code ->
      code = 3 \/ exists rc, R rc /\ code = CheckState_value rc.

Lemma grades_inert R {A} (m : Method A) : inert m -> grades_within R m.
Proof.
  intros Hm s HR. destruct (Hm s) as [Hc Hx]. split.
  - now rewrite Hc.
  - intros code Hcode. now elim (Hx code).
Qed.

Lemma grades_bind R {A B} (m : Method A) (k : A -> Method B) :
  grades_within R m -> (forall a, grades_within R (k a)) ->
  grades_within R (x <- m ;; k x).
Proof.
  intros Hm Hk s HR. destruct (Hm s HR) as [HR1 Hx]. unfold bind.
  destruct (m s) as [[a | code | e] s1]; cbn [fst snd] in *.
  - apply Hk. exact HR1.
  - split; [ exact HR1 | ]. intros c Hc. apply Hx. now inversion Hc.
  - split; [ exact HR1 | discriminate ].
Qed.

Lemma grades_set_check_result (R : CheckState -> Prop) rc :
  R rc -> grades_within R (modify (set_check_result rc)).
Proof. intros Hrc s HR. split; [ exact Hrc | discriminate ]. Qed.

Lemma grades_request R url method :
  method = "get" \/ method = "post" ->
  grades_within R (request url method).
Proof.
  intros Hm s HR. rewrite request_cases by exact Hm.
  destruct (failure_message _).
  - split; [ exact HR | ]. intros code Hc. left. now inversion Hc.
  - destruct (net s _) as [e | r]; [ | destruct (body r) ];
      (split; [ exact HR | discriminate ]).
Qed.

Lemma grades_output_unknown R {A} message :
  grades_within R (@output A UNKNOWN message).
Proof.
  intros s HR. rewrite output_eq. split; [ exact HR | ].
  intros code Hc. left. now inversion Hc.
Qed.

Lemma grades_check_output R : grades_within R check_output.
Proof.
  intros s HR. unfold check_output, bind, get_state, get_perfdata, iadd, ret.
  destruct (truthy (perfdata s)).
  - destruct (check_message s) as [[ | | | | | | ] | ];
      cbn; (split; [ exact HR | ]); try discriminate;
      intros code Hc; right; exists (check_result s);
      (split; [ exact HR | now inversion Hc ]).
  - cbn. split; [ exact HR | ].
    intros code Hc. right. exists (check_result s).
    split; [ exact HR | now inversion Hc ].
Qed.

Ltac grades_step :=
  match goal with
  | |- grades_within _ (bind _ _) => apply grades_bind; [ | intro ]
  | |- grades_within _ (if ?b then _ else _) => destruct b
  | |- grades_within _ (let _ := _ in _) => cbv zeta
  | |- grades_within _ (request _ _) => apply grades_request; auto
  | |- grades_within _ (modify (set_check_result _)) =>
      apply grades_set_check_result; auto
  | |- grades_within _ _ => apply grades_inert; solve [ inert_tac ]
  end.

Lemma grades_check_system : grades_within (fun rc => rc = OK) check_system.
Proof. unfold check_system. repeat grades_step. Qed.

Lemma grades_check_services :
  grades_within (fun rc => rc = OK \/ rc = WARNING) check_services.
Proof. unfold check_services. repeat grades_step. Qed.

(** X8. A run exits with 2, the value of CRITICAL, only in updates mode:
    services mode, system mode and an unknown mode never report CRITICAL. *)
Theorem critical_only_in_updates :
  forall opts network,
    fst (main opts network) = Exit (CheckState_value CRITICAL) ->
    mode opts = "updates".
Proof.
  intros opts network H. rewrite main_mode in H.
  destruct (mode opts =? "updates")%string eqn:Hu;
    [ now apply String.eqb_eq | exfalso ].
  destruct (mode opts =? "services")%string.
  - destruct (grades_bind (fun rc => rc = OK \/ rc = WARNING)
                check_services (fun _ => check_output)
                grades_check_services
                (fun _ => grades_check_output _)
                (answered opts network []) (or_introl eq_refl))
      as [_ Hx].
    destruct (Hx _ H) as [Hc | (rc & [-> | ->] & Hc)]; discriminate.
  - destruct (mode opts =? "system")%string.
    + destruct (grades_bind (fun rc => rc = OK)
                  check_system (fun _ => check_output)
                  grades_check_system
                  (fun _ => grades_check_output _)
                  (answered opts network []) eq_refl)
        as [_ Hx].
      destruct (Hx _ H) as [Hc | (rc & -> & Hc)]; discriminate.
    + discriminate.
Qed.

(** X9. In system mode a run that exits does so with 0 or with 3:
    [check_system] assigns [check_message] only, so the verdict that follows
    a payload is OK whatever the payload says, and 3 comes from a failed
    request. *)
Theorem system_mode_exit_codes :
  forall opts network code,
    mode opts = "system" ->
    fst (main opts network) = Exit code ->
    code = CheckState_value OK \/ code = CheckState_value UNKNOWN.
Proof.
  intros opts network code Hm H. rewrite main_mode, Hm in H.
  cbn [String.eqb Ascii.eqb Bool.eqb] in H.
  destruct (grades_bind (fun rc => rc = OK)
              check_system (fun _ => check_output)
              grades_check_system
              (fun _ => grades_check_output _)
              (answered opts network []) eq_refl)
    as [_ Hx].
  destruct (Hx _ H) as [Hc | (rc & -> & Hc)]; [ now right | now left ].
Qed.

(** ** System mode, payload by payload *)

(** A section [messages] can read: a dict that has a "status" when it has a
    "message". *)
Definition readable (sec : json) : bool :=
  match sec with
  | JDict d =>
      match lookup "message" d with
      | Some _ =>
          match lookup "status" d with
          | Some _ => true
          | None => false
          end
      | None => true
      end
  | _ => false
  end.

(** The message a section contributes: the one it has, unless its status is
    "OK". *)
Definition contribution (sec : json) : list json :=
  match field "message" sec, field "status" sec with
  | Some message, Some st => if eq_str st "OK" then [] else [message]
  | _, _ => []
  end.

Lemma contains_field k j v s :
  field k j = Some v -> contains k j s = (Return true, s).
Proof.
  destruct j; try discriminate. cbn. now intros ->.
Qed.

Lemma contains_no_field k d s :
  lookup k d = None -> contains k (JDict d) s = (Return false, s).
Proof. cbn. now intros ->. Qed.

Lemma messages_spec secs :
  forallb readable secs = true ->
  forall s, messages secs s = (Return (flat_map contribution secs), s).
Proof.
  induction secs as [ | sec secs' IH]; intros Hr s; [ reflexivity | ].
  cbn [forallb] in Hr. apply andb_prop in Hr as [Hsec Hr].
  specialize (IH Hr). cbn [messages flat_map].
  destruct sec as [ | | | | | | d]; try discriminate.
  unfold contribution, readable in *. cbn [field] in *.
  destruct (lookup "message" d) as [message | ] eqn:Hmsg.
  - destruct (lookup "status" d) as [st | ] eqn:Hst; [ | discriminate ].
    erewrite run_bind by (eapply (contains_field _ (JDict d)); exact Hmsg).
    cbv beta iota. rewrite bind_assoc.
    erewrite run_bind by (eapply (getitem_field _ (JDict d)); exact Hst).
    erewrite run_bind by reflexivity.
    destruct (eq_str st "OK"); cbn [negb].
    + apply IH.
    + erewrite run_bind by (eapply (getitem_field _ (JDict d)); exact Hmsg).
      erewrite run_bind by apply IH. reflexivity.
  - erewrite run_bind by (apply contains_no_field; exact Hmsg).
    cbv beta iota. erewrite run_bind by reflexivity. apply IH.
Qed.

(** X10. In system mode, a payload whose System status is "OK" gives the
    line "OK - No problems were detected." and exit status 0, whatever the
    other sections of the payload say. *)
Theorem system_ok_reports_no_problems :
  forall opts network data system,
    mode opts = "system" ->
    replies_with network 0 data ->
    field "System" data = Some system ->
    field "status" system = Some (JStr "OK") ->
    fst (main opts network) = Exit (CheckState_value OK) /\
    stdout (snd (main opts network)) = ["OK - No problems were detected."].
Proof.
  intros opts network data system Hm H0 Hsys Hst. rewrite main_mode, Hm.
  cbn [String.eqb Ascii.eqb Bool.eqb]. unfold check_system.
  rewrite bind_assoc; erewrite run_bind by reflexivity.
  rewrite bind_assoc; erewrite run_bind
    by (apply request_ok; [now left | exact H0]).
  rewrite bind_assoc; erewrite run_bind by (apply getitem_field; exact Hsys).
  rewrite bind_assoc; erewrite run_bind by (apply getitem_field; exact Hst).
  rewrite bind_assoc; erewrite run_bind by reflexivity.
  rewrite bind_assoc; erewrite run_bind by reflexivity.
  rewrite bind_assoc; erewrite run_bind by (apply getitem_field; exact Hsys).
  rewrite bind_assoc; erewrite run_bind by (apply getitem_field; exact Hst).
  split; reflexivity.
Qed.

(** X11. In system mode, a payload whose System status is a str other than
    "OK", "Notice", "Warning" and "Error" ends the run in an uncaught
    [KeyError]: nothing is printed, no severity is reported. *)
Theorem system_unmapped_status_is_uncaught :
  forall opts network data system text,
    mode opts = "system" ->
    replies_with network 0 data ->
    field "System" data = Some system ->
    field "status" system = Some (JStr text) ->
    text <> "OK" -> text <> "Notice" -> text <> "Warning" ->
    text <> "Error" ->
    fst (main opts network) = Raised KeyError /\
    stdout (snd (main opts network)) = [].
Proof.
  intros opts network data system text Hm H0 Hsys Hst Ho Hn Hw He.
  rewrite main_mode, Hm.
  cbn [String.eqb Ascii.eqb Bool.eqb]. unfold check_system.
  rewrite bind_assoc; erewrite run_bind by reflexivity.
  rewrite bind_assoc; erewrite run_bind
    by (apply request_ok; [now left | exact H0]).
  rewrite bind_assoc; erewrite run_bind by (apply getitem_field; exact Hsys).
  rewrite bind_assoc; erewrite run_bind by (apply getitem_field; exact Hst).
  assert (Hk : forall s, status_getitem (JStr text) s = (Raised KeyError, s)).
  { intro s. unfold status_getitem, status. cbn [find fst snd].
    apply not_eq_sym in Ho, Hn, Hw, He.
    apply String.eqb_neq in Ho, Hn, Hw, He. now rewrite Ho, Hn, Hw, He. }
  rewrite bind_assoc; erewrite run_bind_raised by apply Hk.
  split; reflexivity.
Qed.

(** X12. In system mode, for a payload whose System status is "Notice",
    "Warning" or "Error" and whose sections can be read, the message printed
    is the messages of the sections whose own status is not "OK", in the
    payload's order, joined by ", " (those messages being strs). *)
Theorem system_message_joins_sections :
  forall opts network d system text texts,
    mode opts = "system" ->
    replies_with network 0 (JDict d) ->
    lookup "System" d = Some system ->
    field "status" system = Some (JStr text) ->
    text = "Notice" \/ text = "Warning" \/ text = "Error" ->
    forallb readable (map snd d) = true ->
    strs (flat_map contribution (map snd d)) = Some texts ->
    check_message (snd (main opts network)) = PStr (join ", " texts) /\
    exists rc,
      stdout (snd (main opts network))
      = [(CheckState_name rc ++ " - " ++ join ", " texts)%string].
Proof.
  intros opts network d system text texts Hm H0 Hsys Hst Htext Hr Hstrs.
  rewrite main_mode, Hm.
  cbn [String.eqb Ascii.eqb Bool.eqb]. unfold check_system.
  rewrite bind_assoc; erewrite run_bind by reflexivity.
  rewrite bind_assoc; erewrite run_bind
    by (apply request_ok; [now left | exact H0]).
  rewrite bind_assoc; erewrite run_bind by (apply getitem_field; exact Hsys).
  rewrite bind_assoc; erewrite run_bind by (apply getitem_field; exact Hst).
  assert (Hk : forall s, exists rc,
               status_getitem (JStr text) s = (Return rc, s)).
  { intro s. destruct Htext as [-> | [-> | ->]]; eexists; reflexivity. }
  rewrite bind_assoc.
  match goal with
  | |- context [bind (status_getitem (JStr text)) _ ?s1] =>
      destruct (Hk s1) as [rc0 Hrc]
  end.
  erewrite run_bind by exact Hrc.
  rewrite bind_assoc; erewrite run_bind by reflexivity.
  rewrite bind_assoc; erewrite run_bind by (apply getitem_field; exact Hsys).
  rewrite bind_assoc; erewrite run_bind by (apply getitem_field; exact Hst).
  assert (Hne : negb (eq_str (JStr text) "OK") = true)
    by (destruct Htext as [-> | [-> | ->]]; reflexivity).
  rewrite Hne.
  rewrite bind_assoc; erewrite run_bind by reflexivity.
  rewrite bind_assoc; erewrite run_bind by (apply messages_spec; exact Hr).
  rewrite bind_assoc; erewrite run_bind
    by (unfold str_join; rewrite Hstrs; reflexivity).
  split; [ reflexivity | ]. now exists OK.
Qed.

(** ** Services mode, payload by payload *)

Lemma truthy_not_running_names rows :
  truthy (not_running_names rows) = negb (forallb row_running rows).
Proof.
  unfold not_running_names.
  induction rows as [ | row rows' IH]; [ reflexivity | ].
  cbn [filter forallb]. destruct (row_running row); cbn; auto.
Qed.

(** X13. In services mode, for a payload whose rows can be read and whose
    [total] is the number of its rows, the run exits with the value of OK
    when every row has [running == 1] and with the value of WARNING
    otherwise; in the first case the line is "OK - All services are running"
    followed by the metric. *)
Theorem services_verdict :
  forall opts network data rows total,
    mode opts = "services" ->
    replies_with network 0 data ->
    field "rows" data = Some (JList rows) ->
    forallb is_row rows = true ->
    field "total" data = Some total ->
    eq_int total (len (running_names rows) + len (not_running_names rows))
    = true ->
    fst (main opts network)
    = Exit (if forallb row_running rows then CheckState_value OK
            else CheckState_value WARNING) /\
    (forallb row_running rows = true ->
     stdout (snd (main opts network))
     = [("OK - All services are running|'running'="
         ++ str_int (len rows) ++ ";;;0;" ++ str total)%string]).
Proof.
  intros opts network data rows total Hm H0 Hrows Hwf Htotal Heq.
  rewrite (services_run opts network data rows total Hm H0 Hrows Hwf Htotal).
  rewrite Heq, truthy_not_running_names.
  destruct (forallb row_running rows) eqn:Hall; cbn [negb fst snd stdout].
  - split; [ reflexivity | ]. intros _.
    unfold running_metric, running_names.
    assert (Hf : filter row_running rows = rows).
    { clear - Hall. induction rows as [ | row rows' IH]; [ reflexivity | ].
      cbn [forallb] in Hall. apply andb_prop in Hall as [Hrow Hall].
      cbn [filter]. rewrite Hrow, IH by exact Hall. reflexivity. }
    rewrite Hf. unfold len. rewrite length_map. reflexivity.
  - split; [ reflexivity | discriminate ].
Qed.

Definition is_dict (j : json) : bool :=
  match j with
  | JDict _ => true
  | _ => false
  end.

Lemma partition_rows_missing_key rows :
  forallb is_dict rows = true ->
  existsb (fun row => negb (is_row row)) rows = true ->
  forall running not_running s,
    partition_rows rows running not_running s = (Raised KeyError, s).
Proof.
  induction rows as [ | row rows' IH]; intros Hd Hbad running not_running s;
    [ discriminate | ].
  cbn [forallb existsb] in Hd, Hbad. apply andb_prop in Hd as [Hrow Hd].
  destruct row as [ | | | | | | d]; try discriminate.
  cbn [partition_rows]. unfold is_row in Hbad. cbn [field] in Hbad.
  unfold bind at 1. cbn [getitem].
  destruct (lookup "running" d) as [v | ]; [ | reflexivity ].
  cbn [ret]. destruct (lookup "name" d) as [name | ] eqn:Hn.
  - cbn [negb orb] in Hbad.
    destruct (eq_int v 1); unfold bind at 1; cbn [ret];
      apply IH; assumption.
  - destruct (eq_int v 1); reflexivity.
Qed.

(** X14. In services mode, a payload (a dict) without the key "rows", or
    whose rows are dicts of which one has no "running" or no "name", or whose
    rows can be read but that has no "total", ends the run in an uncaught
    [KeyError] with nothing printed. *)
Theorem services_missing_key_is_uncaught :
  forall opts network d,
    mode opts = "services" ->
    replies_with network 0 (JDict d) ->
    lookup "rows" d = None \/
    (exists rows,
       lookup "rows" d = Some (JList rows) /\
       forallb is_dict rows = true /\
       existsb (fun row => negb (is_row row)) rows = true) \/
    (exists rows,
       lookup "rows" d = Some (JList rows) /\
       forallb is_row rows = true /\
       lookup "total" d = None) ->
    fst (main opts network) = Raised KeyError /\
    stdout (snd (main opts network)) = [].
Proof.
  intros opts network d Hm H0 Hcases. rewrite main_mode, Hm.
  cbn [String.eqb Ascii.eqb Bool.eqb]. unfold check_services.
  rewrite bind_assoc; erewrite run_bind by reflexivity.
  rewrite bind_assoc; erewrite run_bind
    by (apply request_ok; [now left | exact H0]).
  destruct Hcases as [Hrows | [(rows & Hrows & Hd & Hbad)
                              | (rows & Hrows & Hwf & Htotal)]].
  - rewrite bind_assoc; erewrite run_bind_raised
      by (cbn [getitem]; rewrite Hrows; reflexivity).
    split; reflexivity.
  - rewrite bind_assoc; erewrite run_bind
      by (cbn [getitem]; rewrite Hrows; reflexivity).
    rewrite bind_assoc; erewrite run_bind by reflexivity.
    rewrite bind_assoc; erewrite run_bind_raised
      by (apply partition_rows_missing_key; assumption).
    split; reflexivity.
  - rewrite bind_assoc; erewrite run_bind
      by (cbn [getitem]; rewrite Hrows; reflexivity).
    rewrite bind_assoc; erewrite run_bind by reflexivity.
    rewrite bind_assoc; erewrite run_bind
      by (apply partition_rows_spec; exact Hwf).
    rewrite bind_assoc; erewrite run_bind_raised
      by (cbn [getitem]; rewrite Htotal; reflexivity).
    split; reflexivity.
Qed.

(** ** Payloads that cannot be graded *)

(** X15. In updates mode, when the payload to grade (the first one, or the
    refreshed one after a first "none") is a dict without the key "status",
    the run ends in an uncaught [KeyError] with nothing printed. *)
Theorem updates_missing_status_is_uncaught :
  forall opts network d,
    mode opts = "updates" ->
    lookup "status" d = None ->
    replies_with network 0 (JDict d) \/
    (exists first st,
       replies_with network 0 first /\
       field "status" first = Some st /\
       eq_str st "none" = true /\
       replies_with network 1 (JDict d)) ->
    fst (main opts network) = Raised KeyError /\
    stdout (snd (main opts network)) = [].
Proof.
  intros opts network d Hm Hd [H0 | (first & st & H0 & Hst & Hnone & H1)].
  - rewrite main_mode, Hm. cbn [String.eqb Ascii.eqb Bool.eqb].
    rewrite check_updates_eq.
    rewrite bind_assoc; erewrite run_bind by reflexivity.
    rewrite bind_assoc; erewrite run_bind
      by (apply request_ok; [now left | exact H0]).
    rewrite bind_assoc; erewrite run_bind_raised
      by (cbn [getitem]; rewrite Hd; reflexivity).
    split; reflexivity.
  - rewrite (updates_run_refreshed opts network first st (JDict d)
               Hm H0 Hst Hnone H1).
    unfold grade_updates.
    rewrite bind_assoc; erewrite run_bind_raised
      by (cbn [getitem]; rewrite Hd; reflexivity).
    split; reflexivity.
Qed.

(** X16. In updates mode, when the payload in effect has the status "update"
    or "upgrade" but no "status_msg", the run ends in an uncaught [KeyError]
    with nothing printed, whatever [status_reboot] is. *)
Theorem updates_missing_status_msg_is_uncaught :
  forall opts network data st,
    mode opts = "updates" ->
    effective_payload network data ->
    field "status" data = Some st ->
    eq_str st "update" || eq_str st "upgrade" = true ->
    field "status_msg" data = None ->
    fst (main opts network) = Raised KeyError /\
    stdout (snd (main opts network)) = [].
Proof.
  intros opts network data st Hm He Hst Hup Hmsg.
  destruct (effective_run opts network data Hm He) as [reqs ->].
  pose proof (grade_updates_verdict data st (answered opts network reqs)
                Hst eq_refl eq_refl) as Hv.
  cbv zeta in Hv. unfold has_update in Hv.
  rewrite Hst, Hup, Hmsg in Hv. exact Hv.
Qed.

Lemma getitem_not_dict j k s :
  is_dict j = false -> getitem j k s = (Raised TypeError, s).
Proof. destruct j; try reflexivity. discriminate. Qed.

(** X17. In each of the three modes, a first payload that is not a dict (a
    list, a str, a number, a boolean or null) ends the run in an uncaught
    [TypeError] with nothing printed. *)
Theorem payload_not_a_dict_is_uncaught :
  forall opts network data,
    mode opts = "updates" \/ mode opts = "services" \/ mode opts = "system" ->
    replies_with network 0 data ->
    is_dict data = false ->
    fst (main opts network) = Raised TypeError /\
    stdout (snd (main opts network)) = [].
Proof.
  intros opts network data Hm H0 Hd. rewrite main_mode.
  destruct Hm as [Hm | [Hm | Hm]]; rewrite Hm;
    cbn [String.eqb Ascii.eqb Bool.eqb];
    [ rewrite check_updates_eq | unfold check_services | unfold check_system ];
    (rewrite bind_assoc; erewrite run_bind by reflexivity);
    (rewrite bind_assoc; erewrite run_bind
       by (apply request_ok; [now left | exact H0]));
    (rewrite bind_assoc; erewrite run_bind_raised
       by (apply getitem_not_dict; exact Hd));
    split; reflexivity.
Qed.

(** ** The reporter *)

(** X18. With a str in [check_message], [check_output] prints the
    severity's name, " - " and the message, followed, when there are
    metrics, by "|" and the metrics joined by single spaces, and exits with
    the value of [check_result]; without metrics nothing follows the
    message. *)
Theorem check_output_line :
  forall s message,
    check_message s = PStr message ->
    fst (check_output s) = Exit (CheckState_value (check_result s)) /\
    stdout (snd (check_output s))
    = (stdout s ++
       [match perfdata s with
        | [] =>
            (CheckState_name (check_result s) ++ " - " ++ message)%string
        | _ :: _ =>
            (CheckState_name (check_result s) ++ " - " ++ message ++ "|"
             ++ join " " (perfdata s))%string
        end])%list.
Proof.
  intros [o p c m n se out] message Hmsg. cbn in Hmsg. subst m.
  destruct p as [ | metric metrics]; split; reflexivity.
Qed.

(** X19. Called with a method that is neither "get" nor "post", [request]
    sends nothing: it prints the CRITICAL line naming the method and exits
    with the value of CRITICAL. *)
Theorem unsupported_method_is_critical :
  forall url method s,
    method <> "get" ->
    method <> "post" ->
    fst (request url method s) = Exit (CheckState_value CRITICAL) /\
    stdout (snd (request url method s))
    = (stdout s ++
       [("CRITICAL - Unsupport request method: " ++ method)%string])%list /\
    sent (snd (request url method s)) = sent s.
Proof.
  intros url method s Hg Hp.
  rewrite request_unsupported by assumption. repeat split.
Qed.

End Python.

Arguments JNull {float}.
Arguments JBool {float} b.
Arguments JInt {float} n.
Arguments JFloat {float} x.
Arguments JStr {float} s.
Arguments JList {float} l.
Arguments JDict {float} d.
Arguments mkResponse {float} status_code body.
Arguments Raises {float} e.
Arguments Responds {float} r.
Arguments mkOptions {float} hostname port api_key api_secret api_insecure
  mode treshold_warning treshold_critical.
Arguments stdout {float} s.
Arguments sent {float} s.
Arguments perfdata {float} s.
Arguments field {float} k j.
Arguments replies_with {float} network n data.
Arguments request_of {float} opts method command.

(** * Concrete runs

    The runs below are on payloads that hold no float and no str that [repr]
    would have to escape: [float] is the empty type and [repr] of a str puts
    it between single quotes. *)

Definition no_float_eq_int (x : Empty_set) (n : Z) : bool :=
  match x with end.
Definition no_float_str (x : Empty_set) : string :=
  match x with end.
Definition quoted (s : string) : string := "'" ++ s ++ "'".

(** [main] with that Python. *)
Definition run (opts : Options Empty_set) (network : nat -> reply Empty_set)
  : outcome unit * state Empty_set :=
  main Empty_set no_float_eq_int no_float_str quoted opts network.

(** Options for a firewall at [opnsense.example.org], in the given mode. *)
Definition example_options (mode : string) : Options Empty_set :=
  mkOptions "opnsense.example.org" 443 "key" "secret" false mode None None.

(** A network that answers every request with status 200 and one payload. *)
Definition serves (data : json Empty_set) : nat -> reply Empty_set :=
  fun _ => Responds (mkResponse 200 (Some data)).

(** A network that answers the first request with one payload and the
    later ones with another, all with status 200. *)
Definition serves_then (first data : json Empty_set)
  : nat -> reply Empty_set :=
  fun n =>
    match n with
    | O => Responds (mkResponse 200 (Some first))
    | S _ => Responds (mkResponse 200 (Some data))
    end.

(** A network that answers status 403, with a body that is not JSON. *)
Definition forbids : nat -> reply Empty_set :=
  fun _ => Responds (mkResponse 403 None).

Lemma serves_replies data n : replies_with (serves data) n data.
Proof. exists (mkResponse 200 (Some data)). repeat split. Defined.

(** A network on which every request fails the TLS handshake. *)
Definition untrusted : nat -> reply Empty_set :=
  fun _ => Raises SSLError.

(** The payloads of the runs. *)
Definition no_information : json Empty_set :=
  JDict [("status", JStr "none")].
Definition update_available : json Empty_set :=
  JDict [("status", JStr "update"); ("status_msg", JStr "pkg available")].
Definition update_with_reboot : json Empty_set :=
  JDict [("status", JStr "upgrade"); ("status_msg", JStr "kernel 24.7");
         ("status_reboot", JStr "1")].
Definition two_rows_of_three : json Empty_set :=
  JDict [("total", JInt 3);
         ("rows",
          JList [JDict [("name", JStr "unbound"); ("running", JInt 1)];
                 JDict [("name", JStr "ntpd"); ("running", JInt 0)]])].
Definition all_running : json Empty_set :=
  JDict [("total", JInt 2);
         ("rows",
          JList [JDict [("name", JStr "unbound"); ("running", JInt 1)];
                 JDict [("name", JStr "ntpd"); ("running", JBool true)]])].

(** Scenario A of the specification: no cached information, then an update. *)
Example scenario_A :
  fst (run (example_options "updates")
         (serves_then no_information update_available)) = Exit 1 /\
  stdout (snd (run (example_options "updates")
                 (serves_then no_information update_available)))
  = ["WARNING - pkg available"].
Proof. split; reflexivity. Qed.

(** Scenario C of the specification. *)
Example scenario_C :
  fst (run (example_options "system")
         (serves (JDict [("System", JDict [("status", JStr "OK")])])))
  = Exit 0 /\
  stdout (snd (run (example_options "system")
                 (serves (JDict [("System", JDict [("status", JStr "OK")])]))))
  = ["OK - No problems were detected."].
Proof. split; reflexivity. Qed.

(** A mode [argparse] would have refused. *)
Example unknown_mode :
  fst (run (example_options "interfaces") forbids) = Exit 3 /\
  stdout (snd (run (example_options "interfaces") forbids))
  = ["UNKNOWN - Check mode 'interfaces' not known"] /\
  sent (snd (run (example_options "interfaces") forbids)) = [].
Proof. repeat split; reflexivity. Qed.

(** ** Witnesses *)

Lemma transport_failure_is_unknown_witness :
  (0 < List.length
         (sent (snd (run (example_options "services") untrusted))))%nat /\
  untrusted 0%nat = Raises SSLError /\
  fst (run (example_options "services") untrusted) = Exit 3 /\
  stdout (snd (run (example_options "services") untrusted))
  = ["UNKNOWN - Could not connect to OPNsense: Certificate validation failed"] /\
  List.length (sent (snd (run (example_options "services") untrusted)))
  = 1%nat.
Proof.
  assert (Hsent : (0 < List.length
                        (sent (snd (run (example_options "services")
                                      untrusted))))%nat)
    by (vm_compute; lia).
  assert (Hnet : untrusted 0%nat = Raises SSLError) by reflexivity.
  assert (Hne : SSLError <> RequestException) by discriminate.
  destruct (transport_failure_is_unknown Empty_set no_float_eq_int
              no_float_str quoted (example_options "services") untrusted
              0%nat SSLError Hsent Hnet Hne)
    as (Hexit & Hout & _ & Hlast).
  repeat split; assumption.
Defined.

Lemma forbidden_is_unknown_witness :
  (0 < List.length
         (sent (snd (run (example_options "updates") forbids))))%nat /\
  forbids 0%nat = Responds (mkResponse 403 None) /\
  fst (run (example_options "updates") forbids) = Exit 3 /\
  stdout (snd (run (example_options "updates") forbids))
  = ["UNKNOWN - Could not fetch data from API: Access denied. Please check if API user has sufficient permissions."].
Proof.
  assert (Hsent : (0 < List.length
                        (sent (snd (run (example_options "updates")
                                      forbids))))%nat)
    by (vm_compute; lia).
  assert (Hnet : forbids 0%nat = Responds (mkResponse 403 None))
    by reflexivity.
  destruct (forbidden_is_unknown Empty_set no_float_eq_int no_float_str
              quoted (example_options "updates") forbids 0%nat
              (mkResponse 403 None) Hsent Hnet eq_refl)
    as (Hexit & Hout & _).
  repeat split; assumption.
Defined.

(** C3 as stated fails: answered with status 403, the run prints a message
    in which "insufficient permissions" does not occur; the text has "has
    sufficient permissions". *)
Lemma forbidden_message_counterexample :
  forbids 0%nat = Responds (mkResponse 403 None) /\
  fst (run (example_options "updates") forbids) = Exit 3 /\
  stdout (snd (run (example_options "updates") forbids))
  = [("UNKNOWN - " ++
      "Could not fetch data from API: Access denied. Please check if API user has sufficient permissions.")%string] /\
  str_contains "insufficient permissions"
    "Could not fetch data from API: Access denied. Please check if API user has sufficient permissions."
  = false.
Proof. repeat split; reflexivity. Qed.

Lemma updates_severity_witness :
  mode Empty_set (example_options "updates") = "updates" /\
  field "status" update_with_reboot = Some (JStr "upgrade") /\
  fst (run (example_options "updates") (serves update_with_reboot))
  = Exit 2 /\
  stdout (snd (run (example_options "updates") (serves update_with_reboot)))
  = ["CRITICAL - kernel 24.7"].
Proof.
  assert (He : effective_payload Empty_set (serves update_with_reboot)
                 update_with_reboot).
  { apply cached with (st := JStr "upgrade");
      [ apply serves_replies | reflexivity | reflexivity ]. }
  destruct (updates_severity Empty_set no_float_eq_int no_float_str quoted
              (example_options "updates") (serves update_with_reboot)
              update_with_reboot (JStr "upgrade") eq_refl He eq_refl)
    as [_ Hup].
  destruct (Hup (JStr "kernel 24.7") eq_refl eq_refl) as [Hcrit _].
  destruct (Hcrit eq_refl) as [Hexit Hout].
  repeat split; assumption.
Defined.

Lemma updates_refresh_once_witness :
  replies_with (serves_then no_information no_information) 0 no_information /\
  replies_with (serves_then no_information no_information) 1 no_information /\
  sent (snd (run (example_options "updates")
               (serves_then no_information no_information)))
  = [request_of (example_options "updates") "get" "core/firmware/status";
     request_of (example_options "updates") "post" "core/firmware/status"] /\
  fst (run (example_options "updates")
         (serves_then no_information no_information)) = Exit 0 /\
  stdout (snd (run (example_options "updates")
                 (serves_then no_information no_information)))
  = ["OK - System up to date"].
Proof.
  assert (H0 : replies_with (serves_then no_information no_information) 0
                 no_information)
    by (exists (mkResponse 200 (Some no_information)); repeat split).
  assert (H1 : replies_with (serves_then no_information no_information) 1
                 no_information)
    by (exists (mkResponse 200 (Some no_information)); repeat split).
  destruct (updates_refresh_once Empty_set no_float_eq_int no_float_str
              quoted (example_options "updates")
              (serves_then no_information no_information)
              no_information (JStr "none") eq_refl H0 eq_refl eq_refl)
    as [Hsent Hused].
  destruct (Hused no_information (JStr "none") H1 eq_refl) as [Hnone _].
  destruct (Hnone eq_refl) as [Hexit Hout].
  repeat split; assumption.
Defined.

Lemma missing_status_reboot_is_warning_witness :
  field "status_reboot" update_available = None /\
  field "status_msg" update_available = Some (JStr "pkg available") /\
  fst (run (example_options "updates") (serves update_available)) = Exit 1 /\
  stdout (snd (run (example_options "updates") (serves update_available)))
  = ["WARNING - pkg available"].
Proof.
  assert (He : effective_payload Empty_set (serves update_available)
                 update_available).
  { apply cached with (st := JStr "update");
      [ apply serves_replies | reflexivity | reflexivity ]. }
  destruct (missing_status_reboot_is_warning Empty_set no_float_eq_int
              no_float_str quoted (example_options "updates")
              (serves update_available) update_available (JStr "update")
              (JStr "pkg available") eq_refl He eq_refl eq_refl eq_refl
              eq_refl)
    as (_ & _ & Hexit & _ & Hout).
  repeat split; assumption.
Defined.

Lemma services_total_mismatch_aborts_witness :
  field "total" two_rows_of_three = Some (JInt 3) /\
  eq_int Empty_set no_float_eq_int (JInt 3) (1 + 1) = false /\
  fst (run (example_options "services") (serves two_rows_of_three))
  = Raised RuntimeError /\
  stdout (snd (run (example_options "services") (serves two_rows_of_three)))
  = [].
Proof.
  destruct (services_total_mismatch_aborts Empty_set no_float_eq_int
              no_float_str quoted (example_options "services")
              (serves two_rows_of_three) two_rows_of_three
              [JDict [("name", JStr "unbound"); ("running", JInt 1)];
               JDict [("name", JStr "ntpd"); ("running", JInt 0)]]
              (JInt 3) eq_refl (serves_replies two_rows_of_three 0)
              eq_refl eq_refl eq_refl eq_refl)
    as (Hraised & Hout & _).
  repeat split; assumption.
Defined.

Lemma services_metric_witness :
  field "total" all_running = Some (JInt 2) /\
  perfdata (snd (run (example_options "services") (serves all_running)))
  = ["'running'=2;;;0;2"] /\
  stdout (snd (run (example_options "services") (serves all_running)))
  = ["OK - All services are running|'running'=2;;;0;2"].
Proof.
  destruct (services_metric Empty_set no_float_eq_int no_float_str quoted
              (example_options "services") (serves all_running) all_running
              [JDict [("name", JStr "unbound"); ("running", JInt 1)];
               JDict [("name", JStr "ntpd"); ("running", JBool true)]]
              (JInt 2) eq_refl (serves_replies all_running 0)
              eq_refl eq_refl eq_refl eq_refl)
    as (Hperf & _).
  split; [ reflexivity | split; [ exact Hperf | reflexivity ] ].
Defined.

Lemma services_message_is_the_literal_witness :
  mode Empty_set (example_options "services") = "services" /\
  fst (run (example_options "services") (serves (scenario_B Empty_set)))
  = Exit 1 /\
  stdout (snd (run (example_options "services")
                 (serves (scenario_B Empty_set))))
  = ["WARNING - Services not running: {', '.join(not_running)}|'running'=2;;;0;3"].
Proof.
  destruct (services_message_is_the_literal Empty_set no_float_eq_int
              no_float_str quoted (example_options "services")
              (serves (scenario_B Empty_set)) eq_refl
              (serves_replies (scenario_B Empty_set) 0))
    as (Hexit & Hout & _).
  repeat split; assumption.
Defined.

Lemma system_status_is_not_reported_witness :
  mode Empty_set (example_options "system") = "system" /\
  fst (run (example_options "system")
         (serves (system_payload Empty_set "Error"))) = Exit 0 /\
  stdout (snd (run (example_options "system")
                 (serves (system_payload Empty_set "Error"))))
  = ["OK - "].
Proof.
  destruct (system_status_is_not_reported Empty_set no_float_eq_int
              no_float_str quoted (example_options "system")
              (serves (system_payload Empty_set "Error")) "Error" eq_refl
              (or_introl eq_refl)
              (serves_replies (system_payload Empty_set "Error") 0))
    as (Hexit & Hout).
  repeat split; assumption.
Defined.

(** ** Further runs *)

(** A network that answers every request with the given status and a body
    that is not JSON. *)
Definition answers_status (code : Z) : nat -> reply Empty_set :=
  fun _ => Responds (mkResponse code None).

(** A network on which every request runs into a read timeout. *)
Definition stalls : nat -> reply Empty_set :=
  fun _ => Raises RequestException.

Definition firewall_down : json Empty_set :=
  JDict [("Firewall",
          JDict [("status", JStr "Error"); ("message", JStr "pf is down")]);
         ("System", JDict [("status", JStr "OK")])].
Definition disk_and_crash : list (string * json Empty_set) :=
  [("Disk",
    JDict [("status", JStr "Warning"); ("message", JStr "disk 95% full")]);
   ("Firewall",
    JDict [("status", JStr "OK"); ("message", JStr "No problems")]);
   ("CrashReporter",
    JDict [("status", JStr "Error"); ("message", JStr "a crash report")]);
   ("System", JDict [("status", JStr "Warning")])].
Definition nameless_row : list (string * json Empty_set) :=
  [("total", JInt 1); ("rows", JList [JDict [("running", JInt 1)]])].

Lemma unauthorized_is_unknown_witness :
  (0 < List.length
         (sent (snd (run (example_options "system")
                       (answers_status 401)))))%nat /\
  fst (run (example_options "system") (answers_status 401)) = Exit 3 /\
  stdout (snd (run (example_options "system") (answers_status 401)))
  = ["UNKNOWN - Could not fetch data from API: Could not connection to OPNsense: invalid username or password"].
Proof.
  assert (Hsent : (0 < List.length
                        (sent (snd (run (example_options "system")
                                      (answers_status 401)))))%nat)
    by (vm_compute; lia).
  destruct (unauthorized_is_unknown Empty_set no_float_eq_int no_float_str
              quoted (example_options "system") (answers_status 401) 0%nat
              (mkResponse 401 None) Hsent eq_refl eq_refl)
    as (Hexit & Hout & _).
  repeat split; assumption.
Defined.

Lemma http_error_is_unknown_witness :
  (0 < List.length
         (sent (snd (run (example_options "services")
                       (answers_status 502)))))%nat /\
  fst (run (example_options "services") (answers_status 502)) = Exit 3 /\
  stdout (snd (run (example_options "services") (answers_status 502)))
  = ["UNKNOWN - Could not fetch data from API: HTTP error code was 502"].
Proof.
  assert (Hsent : (0 < List.length
                        (sent (snd (run (example_options "services")
                                      (answers_status 502)))))%nat)
    by (vm_compute; lia).
  destruct (http_error_is_unknown Empty_set no_float_eq_int no_float_str
              quoted (example_options "services") (answers_status 502) 0%nat
              (mkResponse 502 None) Hsent eq_refl)
    as (Hexit & Hout & _); [ cbn; lia | cbn; lia | cbn; lia | ].
  repeat split; assumption.
Defined.

Lemma undecodable_body_is_uncaught_witness :
  (0 < List.length
         (sent (snd (run (example_options "updates")
                       (answers_status 200)))))%nat /\
  fst (run (example_options "updates") (answers_status 200))
  = Raised JSONDecodeError /\
  stdout (snd (run (example_options "updates") (answers_status 200))) = [].
Proof.
  assert (Hsent : (0 < List.length
                        (sent (snd (run (example_options "updates")
                                      (answers_status 200)))))%nat)
    by (vm_compute; lia).
  destruct (undecodable_body_is_uncaught Empty_set no_float_eq_int
              no_float_str quoted (example_options "updates")
              (answers_status 200) 0%nat (mkResponse 200 None) Hsent eq_refl)
    as (Hexit & Hout & _); [ left; cbn; lia | reflexivity | ].
  repeat split; assumption.
Defined.

Lemma other_requests_exception_is_uncaught_witness :
  (0 < List.length
         (sent (snd (run (example_options "updates") stalls))))%nat /\
  fst (run (example_options "updates") stalls)
  = Raised (Requests RequestException) /\
  stdout (snd (run (example_options "updates") stalls)) = [].
Proof.
  assert (Hsent : (0 < List.length
                        (sent (snd (run (example_options "updates")
                                      stalls))))%nat)
    by (vm_compute; lia).
  destruct (other_requests_exception_is_uncaught Empty_set no_float_eq_int
              no_float_str quoted (example_options "updates") stalls 0%nat
              Hsent eq_refl)
    as (Hexit & Hout & _).
  repeat split; assumption.
Defined.

Lemma unknown_mode_is_unknown_witness :
  mode Empty_set (example_options "interfaces") <> "updates" /\
  fst (run (example_options "interfaces") stalls) = Exit 3 /\
  stdout (snd (run (example_options "interfaces") stalls))
  = ["UNKNOWN - Check mode 'interfaces' not known"] /\
  sent (snd (run (example_options "interfaces") stalls)) = [].
Proof.
  assert (Hu : mode Empty_set (example_options "interfaces") <> "updates")
    by discriminate.
  assert (Hs : mode Empty_set (example_options "interfaces") <> "services")
    by discriminate.
  assert (Hy : mode Empty_set (example_options "interfaces") <> "system")
    by discriminate.
  destruct (unknown_mode_is_unknown Empty_set no_float_eq_int no_float_str
              quoted (example_options "interfaces") stalls Hu Hs Hy)
    as (Hexit & Hout & Hsent).
  repeat split; assumption.
Defined.

Lemma one_request_per_run_witness :
  mode Empty_set (example_options "services") = "services" /\
  sent (snd (run (example_options "services") forbids))
  = [mkRequest "get"
       "https://opnsense.example.org:443/api/core/service/search"
       true ("key", "secret") 30].
Proof.
  split; [ reflexivity | ].
  exact (one_request_per_run Empty_set no_float_eq_int no_float_str quoted
           (example_options "services") forbids (or_introl eq_refl)).
Defined.

Lemma refresh_exactly_when_none_witness :
  mode Empty_set (example_options "updates") = "updates" /\
  sent (snd (run (example_options "updates") (serves update_available)))
  = [request_of (example_options "updates") "get" "core/firmware/status"].
Proof.
  split; [ reflexivity | ].
  destruct (refresh_exactly_when_none Empty_set no_float_eq_int
              no_float_str quoted (example_options "updates")
              (serves update_available) eq_refl)
    as [[_ Hsent] | [_ Hsent]].
  - discriminate Hsent.
  - exact Hsent.
Defined.

Lemma critical_only_in_updates_witness :
  fst (run (example_options "updates") (serves update_with_reboot)) = Exit 2 /\
  mode Empty_set (example_options "updates") = "updates".
Proof.
  assert (Hexit : fst (run (example_options "updates")
                         (serves update_with_reboot)) = Exit 2)
    by reflexivity.
  split; [ exact Hexit | ].
  exact (critical_only_in_updates Empty_set no_float_eq_int no_float_str
           quoted (example_options "updates") (serves update_with_reboot)
           Hexit).
Defined.

Lemma system_mode_exit_codes_witness :
  fst (run (example_options "system")
         (serves (system_payload Empty_set "Error"))) = Exit 0 /\
  (0 = CheckState_value OK \/ 0 = CheckState_value UNKNOWN).
Proof.
  assert (Hexit : fst (run (example_options "system")
                         (serves (system_payload Empty_set "Error")))
                  = Exit 0)
    by reflexivity.
  split; [ exact Hexit | ].
  exact (system_mode_exit_codes Empty_set no_float_eq_int no_float_str
           quoted (example_options "system")
           (serves (system_payload Empty_set "Error")) 0 eq_refl Hexit).
Defined.

Lemma system_ok_reports_no_problems_witness :
  field "System" firewall_down = Some (JDict [("status", JStr "OK")]) /\
  fst (run (example_options "system") (serves firewall_down)) = Exit 0 /\
  stdout (snd (run (example_options "system") (serves firewall_down)))
  = ["OK - No problems were detected."].
Proof.
  destruct (system_ok_reports_no_problems Empty_set no_float_eq_int
              no_float_str quoted (example_options "system")
              (serves firewall_down) firewall_down
              (JDict [("status", JStr "OK")]) eq_refl
              (serves_replies firewall_down 0) eq_refl eq_refl)
    as (Hexit & Hout).
  repeat split; assumption.
Defined.

Lemma system_unmapped_status_is_uncaught_witness :
  fst (run (example_options "system")
         (serves (system_payload Empty_set "Critical")))
  = Raised KeyError /\
  stdout (snd (run (example_options "system")
                 (serves (system_payload Empty_set "Critical")))) = [].
Proof.
  apply (system_unmapped_status_is_uncaught Empty_set no_float_eq_int
           no_float_str quoted (example_options "system")
           (serves (system_payload Empty_set "Critical"))
           (system_payload Empty_set "Critical")
           (JDict [("status", JStr "Critical")]) "Critical" eq_refl
           (serves_replies (system_payload Empty_set "Critical") 0)
           eq_refl eq_refl);
    discriminate.
Defined.

Lemma system_message_joins_sections_witness :
  strs Empty_set
    (flat_map (contribution Empty_set) (map snd disk_and_crash))
  = Some ["disk 95% full"; "a crash report"] /\
  check_message Empty_set
    (snd (run (example_options "system") (serves (JDict disk_and_crash))))
  = PStr Empty_set "disk 95% full, a crash report".
Proof.
  split; [ reflexivity | ].
  destruct (system_message_joins_sections Empty_set no_float_eq_int
              no_float_str quoted (example_options "system")
              (serves (JDict disk_and_crash)) disk_and_crash
              (JDict [("status", JStr "Warning")]) "Warning"
              ["disk 95% full"; "a crash report"] eq_refl
              (serves_replies (JDict disk_and_crash) 0) eq_refl eq_refl
              (or_intror (or_introl eq_refl)) eq_refl eq_refl)
    as (Hmsg & _).
  exact Hmsg.
Defined.

Lemma services_verdict_witness :
  field "total" all_running = Some (JInt 2) /\
  fst (run (example_options "services") (serves all_running)) = Exit 0 /\
  stdout (snd (run (example_options "services") (serves all_running)))
  = ["OK - All services are running|'running'=2;;;0;2"].
Proof.
  destruct (services_verdict Empty_set no_float_eq_int no_float_str quoted
              (example_options "services") (serves all_running) all_running
              [JDict [("name", JStr "unbound"); ("running", JInt 1)];
               JDict [("name", JStr "ntpd"); ("running", JBool true)]]
              (JInt 2) eq_refl (serves_replies all_running 0)
              eq_refl eq_refl eq_refl eq_refl)
    as (Hexit & Hout).
  split; [ reflexivity | split; [ exact Hexit | exact (Hout eq_refl) ] ].
Defined.

Lemma services_missing_key_is_uncaught_witness :
  lookup Empty_set "rows" nameless_row
  = Some (JList [JDict [("running", JInt 1)]]) /\
  fst (run (example_options "services") (serves (JDict nameless_row)))
  = Raised KeyError /\
  stdout (snd (run (example_options "services")
                 (serves (JDict nameless_row)))) = [].
Proof.
  split; [ reflexivity | ].
  apply (services_missing_key_is_uncaught Empty_set no_float_eq_int
           no_float_str quoted (example_options "services")
           (serves (JDict nameless_row)) nameless_row eq_refl
           (serves_replies (JDict nameless_row) 0)).
  right. left. exists [JDict [("running", JInt 1)]].
  repeat split.
Defined.

Lemma updates_missing_status_is_uncaught_witness :
  lookup Empty_set "status" [("product_version", JStr "24.7")] = None /\
  fst (run (example_options "updates")
         (serves (JDict [("product_version", JStr "24.7")])))
  = Raised KeyError /\
  stdout (snd (run (example_options "updates")
                 (serves (JDict [("product_version", JStr "24.7")])))) = [].
Proof.
  split; [ reflexivity | ].
  apply (updates_missing_status_is_uncaught Empty_set no_float_eq_int
           no_float_str quoted (example_options "updates")
           (serves (JDict [("product_version", JStr "24.7")]))
           [("product_version", JStr "24.7")] eq_refl eq_refl).
  left. apply serves_replies.
Defined.

Lemma updates_missing_status_msg_is_uncaught_witness :
  field "status_msg" (JDict [("status", @JStr Empty_set "upgrade")]) = None /\
  fst (run (example_options "updates")
         (serves (JDict [("status", JStr "upgrade")])))
  = Raised KeyError /\
  stdout (snd (run (example_options "updates")
                 (serves (JDict [("status", JStr "upgrade")])))) = [].
Proof.
  split; [ reflexivity | ].
  apply (updates_missing_status_msg_is_uncaught Empty_set no_float_eq_int
           no_float_str quoted (example_options "updates")
           (serves (JDict [("status", JStr "upgrade")]))
           (JDict [("status", JStr "upgrade")]) (JStr "upgrade") eq_refl).
  - apply cached with (st := JStr "upgrade");
      [ apply serves_replies | reflexivity | reflexivity ].
  - reflexivity.
  - reflexivity.
  - reflexivity.
Defined.

Lemma payload_not_a_dict_is_uncaught_witness :
  is_dict Empty_set (JList []) = false /\
  fst (run (example_options "services") (serves (JList [])))
  = Raised TypeError /\
  stdout (snd (run (example_options "services") (serves (JList [])))) = [].
Proof.
  split; [ reflexivity | ].
  apply (payload_not_a_dict_is_uncaught Empty_set no_float_eq_int
           no_float_str quoted (example_options "services")
           (serves (JList [])) (JList [])
           (or_intror (or_introl eq_refl)) (serves_replies (JList []) 0)
           eq_refl).
Defined.

(** A state with two metrics and a verdict to report. *)
Definition two_metrics : state Empty_set :=
  mkState Empty_set (example_options "services")
    ["'running'=2;;;0;2"; "'stopped'=0"] WARNING
    (PStr Empty_set "one service was restarted") stalls [] [].

Lemma check_output_line_witness :
  check_message Empty_set two_metrics
  = PStr Empty_set "one service was restarted" /\
  fst (check_output Empty_set no_float_str quoted two_metrics) = Exit 1 /\
  stdout (snd (check_output Empty_set no_float_str quoted two_metrics))
  = ["WARNING - one service was restarted|'running'=2;;;0;2 'stopped'=0"].
Proof.
  split; [ reflexivity | ].
  exact (check_output_line Empty_set no_float_str quoted two_metrics
           "one service was restarted" eq_refl).
Defined.

Lemma unsupported_method_is_critical_witness :
  "put" <> "get" /\
  fst (request Empty_set no_float_str quoted
         "https://opnsense.example.org:443/api/core/firmware/status" "put"
         two_metrics) = Exit 2 /\
  stdout (snd (request Empty_set no_float_str quoted
                 "https://opnsense.example.org:443/api/core/firmware/status"
                 "put" two_metrics))
  = ["CRITICAL - Unsupport request method: put"] /\
  sent (snd (request Empty_set no_float_str quoted
               "https://opnsense.example.org:443/api/core/firmware/status"
               "put" two_metrics)) = [].
Proof.
  assert (Hg : "put" <> "get") by discriminate.
  assert (Hp : "put" <> "post") by discriminate.
  split; [ exact Hg | ].
  exact (unsupported_method_is_critical Empty_set no_float_str quoted
           "https://opnsense.example.org:443/api/core/firmware/status" "put"
           two_metrics Hg Hp).
Defined.

(** ** Update payloads without a message *)

Definition reboot_without_message : json Empty_set :=
  JDict [("status", JStr "update"); ("status_reboot", JStr "1")].
Definition update_without_message : json Empty_set :=
  JDict [("status", JStr "update")].

(** C4 as stated fails: the payload in effect has the status "update" and
    [status_reboot] "1", yet the run reports no CRITICAL; [status_msg] is
    read before the reboot is looked at, and the payload has none, so the
    run ends in an uncaught [KeyError] with nothing printed. *)
Lemma updates_severity_counterexample :
  effective_payload Empty_set (serves reboot_without_message)
    reboot_without_message /\
  field "status" reboot_without_message = Some (JStr "update") /\
  field "status_reboot" reboot_without_message = Some (JStr "1") /\
  fst (run (example_options "updates") (serves reboot_without_message))
  = Raised KeyError /\
  fst (run (example_options "updates") (serves reboot_without_message))
  <> Exit (CheckState_value CRITICAL) /\
  stdout (snd (run (example_options "updates")
                 (serves reboot_without_message))) = [].
Proof.
  split.
  { apply cached with (st := JStr "update");
      [ apply serves_replies | reflexivity | reflexivity ]. }
  repeat split; try reflexivity. discriminate.
Qed.

(** C10 as stated fails: the payload in effect has the status "update" and
    no [status_reboot], yet the classifier fails; the payload has no
    [status_msg] either, and the run ends in an uncaught [KeyError] instead
    of a WARNING. *)
Lemma missing_status_reboot_counterexample :
  effective_payload Empty_set (serves update_without_message)
    update_without_message /\
  field "status" update_without_message = Some (JStr "update") /\
  field "status_reboot" update_without_message = None /\
  fst (run (example_options "updates") (serves update_without_message))
  = Raised KeyError /\
  fst (run (example_options "updates") (serves update_without_message))
  <> Exit (CheckState_value WARNING) /\
  stdout (snd (run (example_options "updates")
                 (serves update_without_message))) = [].
Proof.
  split.
  { apply cached with (st := JStr "update");
      [ apply serves_replies | reflexivity | reflexivity ]. }
  repeat split; try reflexivity. discriminate.
Qed.
